(** * timely: the time ledger (pkg/timeutils/durations.go) and the short-time
      parser (pkg/timeutils/parser.go)

    A shallow embedding of the two Go files and the properties of their
    functions.

    Conventions of the embedding.
    - A [time.Time] is the instant it denotes, counted in nanoseconds from
      the zero time (January 1, year 1, 00:00:00) on the time line of the
      zone it is read in.  [Before], [Sub] and [IsZero] of wall-clock values
      depend on nothing else.
    - A [time.Duration] is an [int64] count of nanoseconds: additions wrap
      around modulo 2^64, [Sub] saturates as the time package documents.
    - A slice is the list of its elements; a Go [int] index is a [Z].
    - [sort.Slice] is modelled by its contract: it returns the arrangement
      of the elements that is ordered by the comparison it is given. *)

From Stdlib Require Import ZArith Lia String Ascii DecimalString.
From stdpp Require Import base tactics list sorting numbers.

Local Open Scope Z_scope.

(** ** The time package *)

Module GoTime.

Abbreviation Time := Z (only parsing).
Abbreviation Duration := Z (only parsing).

Definition Nanosecond : Duration := 1.
Definition Second : Duration := 1000000000.
Definition Minute : Duration := 60 * Second.
Definition Hour : Duration := 60 * Minute.
Definition nsPerDay : Z := 24 * Hour.

Definition minDuration : Duration := - 2 ^ 63.
Definition maxDuration : Duration := 2 ^ 63 - 1.

(** The values an [int64] holds. *)
Definition inInt64 (d : Z) : Prop := minDuration <= d <= maxDuration.

(** [int64] addition: the mathematical sum reduced into
    [minDuration .. maxDuration]. *)
Definition wrap64 (z : Z) : Z := (z + 2 ^ 63) mod 2 ^ 64 - 2 ^ 63.
Definition add64 (a b : Duration) : Duration := wrap64 (a + b).

(** [time.Time{}] *)
Definition zeroTime : Time := 0.

(** [t.IsZero()] *)
Definition IsZero (t : Time) : bool := t =? 0.

(** [t.Before(u)] *)
Definition Before (t u : Time) : bool := t <? u.

(** [t.Sub(u)]: the duration t-u, or the maximum (minimum) duration when
    t-u exceeds what a Duration stores. *)
Definition Sub (t u : Time) : Duration :=
  if maxDuration <? t - u then maxDuration
  else if t - u <? minDuration then minDuration
  else t - u.

(** [time.Date(year, month, day, hour, min, sec, nsec, time.Local)], the
    calendar date given by the number [day] of its midnight. *)
Definition Date (day hour min sec nsec : Z) : Time :=
  day * nsPerDay + hour * Hour + min * Minute + sec * Second + nsec.

(** The day number of [now.Year(), now.Month(), now.Day()]. *)
Definition dayOf (now : Time) : Z := now / nsPerDay.

(** The clock fields that [Format] reads. *)
Definition hourOf (t : Time) : Z := (t mod nsPerDay) / Hour.
Definition minuteOf (t : Time) : Z := (t mod Hour) / Minute.

End GoTime.

Import GoTime.

(** ** durations.go *)

(** [sort.Slice(times, less)]: insertion by the comparison [less]. *)
Section SortSlice.
Context {A : Type} (less : A -> A -> bool).

Fixpoint sortInsert (x : A) (l : list A) : list A :=
  match l with
  | [] => [x]
  | y :: l' => if less x y then x :: y :: l' else y :: sortInsert x l'
  end.

Fixpoint sortSlice (l : list A) : list A :=
  match l with
  | [] => []
  | x :: l' => sortInsert x (sortSlice l')
  end.
End SortSlice.

(** [len(s)] as a Go [int]. *)
Definition len {A} (s : list A) : Z := Z.of_nat (length s).

(** [type Durations []time.Time] *)
Abbreviation Durations := (list Z) (only parsing).

(** [func (durations Durations) Last() time.Time] *)
Definition Last (durations : Durations) : Time :=
  if len durations =? 0 then zeroTime
  else default zeroTime (durations !! Z.to_nat (len durations - 1)).

(** [func sortTimesAscending(times []time.Time)] *)
Definition sortTimesAscending (times : list Time) : list Time :=
  sortSlice Before times.

(** [func (durations Durations) Append(t time.Time) Durations] *)
Definition Append (durations : Durations) (t : Time) : Durations :=
  let values := durations ++ [t] in
  sortTimesAscending values.

(** [func (duration Durations) RemoveItem(index int) Durations] *)
Definition RemoveItem (duration : Durations) (index : Z) : Durations :=
  if (index <? 0) || (index >=? len duration) then duration
  else
    let values := take (Z.to_nat index) duration
                  ++ drop (Z.to_nat (index + 1)) duration in
    sortTimesAscending values.

(** The summation loop of [SumPairedDurationsWithNow]:
    [for i := 0; i < len(tlist); i += 2 { ... }], one iteration per unit of
    [fuel]. *)
Fixpoint pairLoop (fuel : nat) (tlist : list Time) (i : nat) (total : Duration)
  : Duration :=
  match fuel with
  | O => total
  | S fuel' =>
      match tlist !! i with
      | None => total                       (* i < len(tlist) fails *)
      | Some start =>
          match tlist !! (i + 1)%nat with
          | None => total                   (* (i + 1) >= len(tlist): break *)
          | Some end_ =>
              let d := Sub end_ start in
              let total' := if 0 <? d then add64 total d else total in
              pairLoop fuel' tlist (i + 2)%nat total'
          end
      end
  end.

(** [func SumPairedDurationsWithNow(times Durations, now time.Time) time.Duration] *)
Definition SumPairedDurationsWithNow (times : Durations) (now : Time) : Duration :=
  if len times =? 0 then 0
  else
    let tlist := times in
    let tlist :=
      if (len tlist mod 2 =? 1) && negb (IsZero now) then tlist ++ [now]
      else tlist in
    let tlist := sortSlice Before tlist in
    pairLoop (length tlist) tlist 0 0.

(** The pairing of the specification: the sum of end minus start over the
    consecutive pairs (0,1), (2,3), ... of a sequence, as durations; a
    trailing singleton belongs to no pair. *)
Fixpoint pairedSum (l : list Time) : Duration :=
  match l with
  | start :: end_ :: rest => add64 (Sub end_ start) (pairedSum rest)
  | _ => 0
  end.

(** The loop of [SumPairedDurationsWithNow] read along the list instead of
    by index: what is left to visit, and the running total. *)
Fixpoint pairFold (total : Duration) (l : list Time) : Duration :=
  match l with
  | start :: end_ :: rest =>
      let d := Sub end_ start in
      pairFold (if 0 <? d then add64 total d else total) rest
  | _ => total
  end.

(** The same sum over the integers, without the limits of a Duration. *)
Fixpoint pairedSpan (l : list Time) : Z :=
  match l with
  | start :: end_ :: rest => (end_ - start) + pairedSpan rest
  | _ => 0
  end.

(** ** The regexp package, as far as parser.go uses it *)

Module Regexp.

(** Parsed expressions after simplification: a counted repetition
    [x{n,m}] is [n] copies of [x] followed by [m-n] nested [x?]. *)
Inductive Regexp : Type :=
| NoMatch
| EmptyMatch
| CharClass (cls : ascii -> bool)
| Concat (r1 r2 : Regexp)
| Alternate (r1 r2 : Regexp).

Definition Quest (r : Regexp) : Regexp := Alternate r EmptyMatch.

Fixpoint upTo (r : Regexp) (k : nat) : Regexp :=
  match k with
  | O => EmptyMatch
  | S k' => Quest (Concat r (upTo r k'))
  end.

Fixpoint Repeat (r : Regexp) (min max : nat) : Regexp :=
  match min with
  | O => upTo r max
  | S min' => Concat r (Repeat r min' (Nat.pred max))
  end.

(** The strings an expression denotes. *)
Fixpoint lang (r : Regexp) (s : string) : Prop :=
  match r with
  | NoMatch => False
  | EmptyMatch => s = EmptyString
  | CharClass cls => exists c, s = String c EmptyString /\ cls c = true
  | Concat r1 r2 =>
      exists s1 s2, s = (s1 ++ s2)%string /\ lang r1 s1 /\ lang r2 s2
  | Alternate r1 r2 => lang r1 s \/ lang r2 s
  end.

(** Matching by derivatives. *)
Fixpoint nullable (r : Regexp) : bool :=
  match r with
  | NoMatch => false
  | EmptyMatch => true
  | CharClass _ => false
  | Concat r1 r2 => nullable r1 && nullable r2
  | Alternate r1 r2 => nullable r1 || nullable r2
  end.

Fixpoint deriv (c : ascii) (r : Regexp) : Regexp :=
  match r with
  | NoMatch => NoMatch
  | EmptyMatch => NoMatch
  | CharClass cls => if cls c then EmptyMatch else NoMatch
  | Concat r1 r2 =>
      if nullable r1
      then Alternate (Concat (deriv c r1) r2) (deriv c r2)
      else Concat (deriv c r1) r2
  | Alternate r1 r2 => Alternate (deriv c r1) (deriv c r2)
  end.

(** [re.MatchString(s)] for an expression anchored as [^(...)$]: the whole
    of [s] has to match. *)
Fixpoint MatchString (re : Regexp) (s : string) : bool :=
  match s with
  | EmptyString => nullable re
  | String c s' => MatchString (deriv c re) s'
  end.

End Regexp.

(** ** parser.go *)

(** [\d]: the ASCII digits. *)
Definition isDigit (c : ascii) : bool :=
  (48 <=? nat_of_ascii c)%nat && (nat_of_ascii c <=? 57)%nat.

Definition isColon (c : ascii) : bool := Ascii.eqb c ":".

(** [validTimeFormat = regexp.MustCompile(`^(\d{1,4}|\d{1,2}:\d{2})$`)] *)
Definition validTimeFormat : Regexp.Regexp :=
  Regexp.Alternate
    (Regexp.Repeat (Regexp.CharClass isDigit) 1 4)
    (Regexp.Concat (Regexp.Repeat (Regexp.CharClass isDigit) 1 2)
       (Regexp.Concat (Regexp.CharClass isColon)
          (Regexp.Repeat (Regexp.CharClass isDigit) 2 2))).

(** [strings.ReplaceAll(s, old, new)] for a one-byte [old]. *)
Fixpoint ReplaceAll (s : string) (old : ascii) (new : string) : string :=
  match s with
  | EmptyString => EmptyString
  | String c s' =>
      if Ascii.eqb c old then (new ++ ReplaceAll s' old new)%string
      else String c (ReplaceAll s' old new)
  end.

(** The verb [%02s] of [fmt.Sprintf]: the string, padded on the left with
    zeros to a width of two. *)
Definition pad02s (s : string) : string :=
  match String.length s with
  | O => "00"
  | S O => String "0" s
  | _ => s
  end.

(** The value of a decimal digit, [c - '0']. *)
Definition digitVal (c : ascii) : Z := Z.of_nat (nat_of_ascii c) - 48.

(** The digits of [Atoi], most significant first. *)
Fixpoint atoiDigits (acc : Z) (s : string) : option Z :=
  match s with
  | EmptyString => Some acc
  | String c s' =>
      if isDigit c then atoiDigits (acc * 10 + digitVal c) s' else None
  end.

(** [strconv.Atoi]: an optional sign, then decimal digits only; [None] is a
    non-nil error (syntax, or a value out of the range of [int]). *)
Definition Atoi (s : string) : option Z :=
  let '(neg, body) :=
    match s with
    | String c s' =>
        if Ascii.eqb c "-" then (true, s')
        else if Ascii.eqb c "+" then (false, s')
        else (false, s)
    | EmptyString => (false, s)
    end in
  match body with
  | EmptyString => None
  | _ =>
      match atoiDigits 0 body with
      | None => None
      | Some n =>
          let v := if neg : bool then - n else n in
          if (v <? - 2 ^ 63) || (2 ^ 63 - 1 <? v) then None else Some v
      end
  end.

(** The errors [ParseTime] builds with [fmt.Errorf], one constructor per
    message; all are values of the one type [error]. *)
Inductive error : Type :=
| ErrNotSupported (timeStr : string)  (* "%s is not a supported time format: " *)
| ErrLength (n : nat)                 (* "unsupported time format length: %d" *)
| ErrHours                            (* "invalid hours: %w" *)
| ErrMinutes                          (* "invalid minutes: %w" *)
| ErrHoursRange (hours : Z)           (* "hours out of range (0-23): %d" *)
| ErrMinutesRange (minutes : Z).      (* "minutes out of range (0-50): %d" *)

(** A Go result [(T, error)]: the value, or the non-nil error. *)
Definition result (T : Type) : Type := T + error.

Definition bind {T U} (r : result T) (k : T -> result U) : result U :=
  match r with
  | inl v => k v
  | inr e => inr e
  end.

Notation "'let?' x ':=' r 'in' k" := (bind r (fun x => k))
  (at level 10, x name, r at level 100, k at level 200).

Definition orError {T} (o : option T) (e : error) : result T :=
  match o with
  | Some v => inl v
  | None => inr e
  end.

(** The [switch len(timeStr)] of [ParseTime]. *)
Definition normalizeLength (timeStr : string) : result string :=
  match String.length timeStr with
  | 1%nat | 2%nat => inl (pad02s timeStr ++ "00")%string
  | 3%nat => inl (String "0" timeStr)
  | 4%nat => inl timeStr
  | n => inr (ErrLength n)
  end.

(** [func ParseTime(timeStr string) (time.Time, error)]; [now] is the
    reading of [time.Now()]. *)
Definition ParseTime (now : Time) (timeStr : string) : result Time :=
  if negb (Regexp.MatchString validTimeFormat timeStr)
  then inr (ErrNotSupported timeStr)
  else
    let timeStr := ReplaceAll timeStr ":" "" in
    let? timeStr := normalizeLength timeStr in
    let? hours := orError (Atoi (substring 0 2 timeStr)) ErrHours in
    let? minutes :=
      orError (Atoi (substring 2 (String.length timeStr - 2) timeStr))
        ErrMinutes in
    if (hours <? 0) || (hours >? 23) then inr (ErrHoursRange hours)
    else if (minutes <? 0) || (minutes >? 59) then inr (ErrMinutesRange minutes)
    else inl (Date (dayOf now) hours minutes 0 0).

(** [strconv]-style printing of a clock field in two digits, as
    [Format] does for the layouts [15] and [04]. *)
Definition digitChar (d : Z) : ascii := ascii_of_nat (48 + Z.to_nat d).

Definition twoDigits (x : Z) : string :=
  String (digitChar (x / 10)) (String (digitChar (x mod 10)) EmptyString).

(** [func FormatTime(d time.Time) string], that is [d.Format("15:04")]. *)
Definition FormatTime (d : Time) : string :=
  (twoDigits (hourOf d) ++ ":" ++ twoDigits (minuteOf d))%string.

(** [strings.TrimSpace] on ASCII text: leading and trailing white space
    removed. *)
Definition isSpace (c : ascii) : bool :=
  match c with
  | " "%char | "009"%char | "010"%char | "011"%char | "012"%char | "013"%char => true
  | _ => false
  end.

Fixpoint trimLeft (s : string) : string :=
  match s with
  | String c s' => if isSpace c then trimLeft s' else s
  | EmptyString => EmptyString
  end.

Fixpoint trimRight (s : string) : string :=
  match s with
  | EmptyString => EmptyString
  | String c s' =>
      match trimRight s' with
      | EmptyString => if isSpace c then EmptyString else String c EmptyString
      | t => String c t
      end
  end.

Definition TrimSpace (s : string) : string := trimRight (trimLeft s).

(** The grammar of the specification: (a) one to four decimal digits, or
    (b) one or two digits, a single colon, exactly two digits. *)
Fixpoint allDigits (s : string) : bool :=
  match s with
  | EmptyString => true
  | String c s' => isDigit c && allDigits s'
  end.

Definition grammarDigits (s : string) : Prop :=
  (1 <= String.length s <= 4)%nat /\ allDigits s = true.

Definition grammarColon (s : string) : Prop :=
  exists h m : string,
    s = (h ++ ":" ++ m)%string /\
    (1 <= String.length h <= 2)%nat /\ allDigits h = true /\
    String.length m = 2%nat /\ allDigits m = true.

Definition acceptedGrammar (s : string) : Prop :=
  grammarDigits s \/ grammarColon s.

(** The value of a string of decimal digits. *)
Fixpoint digitsValue (acc : Z) (s : string) : Z :=
  match s with
  | EmptyString => acc
  | String c s' => digitsValue (acc * 10 + digitVal c) s'
  end.

(** The hour and the minute the specification reads from an accepted
    input: the colon is stripped; one or two digits are an hour with
    minutes 00, three digits are H and MM, four digits are HH and MM. *)
Definition specFields (s : string) : Z * Z :=
  let digits := ReplaceAll s ":" "" in
  match String.length digits with
  | 1%nat | 2%nat => (digitsValue 0 digits, 0)
  | 3%nat => (digitsValue 0 (substring 0 1 digits), digitsValue 0 (substring 1 2 digits))
  | _ => (digitsValue 0 (substring 0 2 digits), digitsValue 0 (substring 2 2 digits))
  end.

(** The canonical text "HH:MM" of an hour and a minute. *)
Definition canonical (h m : Z) : string :=
  (twoDigits h ++ ":" ++ twoDigits m)%string.

(** The six forms of text the grammar allows, digit by digit. *)
Inductive timeShape : string -> Prop :=
| shape_H a :
    isDigit a = true -> timeShape (String a EmptyString)
| shape_HH a b :
    isDigit a = true -> isDigit b = true ->
    timeShape (String a (String b EmptyString))
| shape_HMM a b c :
    isDigit a = true -> isDigit b = true -> isDigit c = true ->
    timeShape (String a (String b (String c EmptyString)))
| shape_HHMM a b c d :
    isDigit a = true -> isDigit b = true -> isDigit c = true ->
    isDigit d = true ->
    timeShape (String a (String b (String c (String d EmptyString))))
| shape_H_MM a b c :
    isDigit a = true -> isDigit b = true -> isDigit c = true ->
    timeShape (String a (String ":" (String b (String c EmptyString))))
| shape_HH_MM a b c d :
    isDigit a = true -> isDigit b = true -> isDigit c = true ->
    isDigit d = true ->
    timeShape
      (String a (String b (String ":" (String c (String d EmptyString))))).

(** A clock reading of today from an hour and a minute, with the range
    validation of the specification: hour 0-23, minute 0-59. *)
Definition clockOf (now : Time) (hours minutes : Z) : result Time :=
  if (hours <? 0) || (hours >? 23) then inr (ErrHoursRange hours)
  else if (minutes <? 0) || (minutes >? 59) then inr (ErrMinutesRange minutes)
  else inl (Date (dayOf now) hours minutes 0 0).

(** The value of two decimal digits. *)
Definition twoDigitValue (a b : ascii) : Z := digitVal a * 10 + digitVal b.

(** ** The rest of durations.go *)

(** [-d] and [a - b] on an [int64]. *)
Definition neg64 (d : Duration) : Duration := wrap64 (- d).
Definition sub64 (a b : Duration) : Duration := wrap64 (a - b).

(** Decimal printing of an integer. *)
Definition itoa (n : Z) : string := NilZero.string_of_int (Z.to_int n).

Fixpoint zeros (k : nat) (s : string) : string :=
  match k with
  | O => s
  | S k' => String "0" (zeros k' s)
  end.

(** The verb [%02d] of [fmt.Sprintf]: the decimal digits, with zeros in
    front up to a width of two, the sign counted and written first. *)
Definition sprintf02d (n : Z) : string :=
  if n <? 0
  then String "-" (zeros (1 - String.length (itoa (- n))) (itoa (- n)))
  else zeros (2 - String.length (itoa n)) (itoa n).

(** [func FormatDuration(d time.Duration) string]; each call takes one unit
    of [fuel], and [None] is a call that has not returned when the fuel
    is spent.  [/] and [%] truncate toward zero. *)
Fixpoint FormatDuration (fuel : nat) (d : Duration) : option string :=
  match fuel with
  | O => None
  | S fuel' =>
      if d <? 0 then
        match FormatDuration fuel' (neg64 d) with
        | Some s => Some (String "-" s)
        | None => None
        end
      else
        let h := Z.quot d Hour in
        let m := Z.quot (Z.rem d Hour) Minute in
        Some (sprintf02d h ++ ":" ++ sprintf02d m)%string
  end.

(** The text of the hours and minutes in a duration that is not negative,
    as [FormatDuration] prints it. *)
Definition hoursMinutes (d : Duration) : string :=
  (sprintf02d (d / Hour) ++ ":" ++ sprintf02d (d mod Hour / Minute))%string.

(** The loop [for i, d := range duration { strs[i] = d.Format("15:04") }]. *)
Fixpoint rangeFormat (i : nat) (rest : list Time) (strs : list string)
  : list string :=
  match rest with
  | [] => strs
  | d :: rest' => rangeFormat (S i) rest' (<[i := FormatTime d]> strs)
  end.

(** [func (duration Durations) StringSlice() []string] *)
Definition StringSlice (duration : Durations) : list string :=
  let strs := replicate (length duration) EmptyString in
  rangeFormat 0 duration strs.

(** [func SumPairedDurations(times Durations) time.Duration]; [now] is the
    reading of [time.Now()]. *)
Definition SumPairedDurations (now : Time) (times : Durations) : Duration :=
  SumPairedDurationsWithNow times now.

(** *** [RemoveItem] on the memory of its slice

    A slice is a backing array and a length: its elements are the first
    [slen] ones of the array, its capacity is the length of the array. *)
Record slice : Type := { backing : list Time; slen : nat }.

Definition elems (s : slice) : list Time := take (slen s) (backing s).

(** [append(dst, src...)] within the capacity of [dst]: the elements of
    [src] written into the array from position [i] on. *)
Fixpoint writeAt (arr : list Time) (i : nat) (src : list Time) : list Time :=
  match src with
  | [] => arr
  | x :: src' => writeAt (<[i := x]> arr) (S i) src'
  end.

(** [sortTimesAscending(values)] for a slice of [n] elements of [arr]. *)
Definition sortInPlace (arr : list Time) (n : nat) : list Time :=
  sortSlice Before (take n arr) ++ drop n arr.

(** [func (duration Durations) RemoveItem(index int) Durations], with the
    array that [append(duration[:index], duration[index+1:]...)] and the
    sorting write to. *)
Definition RemoveItemInPlace (duration : slice) (index : Z) : slice :=
  if (index <? 0) || (index >=? Z.of_nat (slen duration)) then duration
  else
    let i := Z.to_nat index in
    let tail := drop (i + 1) (elems duration) in
    let arr := writeAt (backing duration) i tail in
    let n := (i + length tail)%nat in
    {| backing := sortInPlace arr n; slen := n |}.

(** ** The program (package main)

    The fields of [model] that hold times and durations; the widgets and
    the percentage (a [float64]) are left out.  What the handlers read
    from the clock and from the widgets comes in a [readings] record. *)
Record model : Type := {
  durations : list Time;
  total : Duration;
  totalProvisionnal : Duration;
  overtime : Duration;
  planned : string;
  quitting : bool;
  target : Duration;
  startupTime : Time
}.

Record readings : Type := {
  nowParse : Time;        (* time.Now() in ParseTime *)
  nowTotals : Time;       (* time.Now() in RecalculateDurations *)
  inputValue : string;    (* m.textInput.Value() *)
  listIndex : Z           (* m.list.Index() *)
}.

(** [func (m model) RecalculateDurations() model] *)
Definition RecalculateDurations (now : Time) (m : model) : model :=
  let totalProvisionnal' := SumPairedDurationsWithNow (durations m) now in
  let total' := SumPairedDurationsWithNow (durations m) zeroTime in
  let overtime' := sub64 total' (target m) in
  let last := Last (durations m) in
  let planned' :=
    if negb (IsZero last)
    then let remaining := sub64 (target m) total' in
         FormatTime (last + remaining)
    else planned m in
  {| durations := durations m; total := total';
     totalProvisionnal := totalProvisionnal'; overtime := overtime';
     planned := planned'; quitting := quitting m; target := target m;
     startupTime := startupTime m |}.

(** [func (m model) Append(t time.Time) model] *)
Definition model_Append (now : Time) (t : Time) (m : model) : model :=
  let m :=
    {| durations := Append (durations m) t; total := total m;
       totalProvisionnal := totalProvisionnal m; overtime := overtime m;
       planned := planned m; quitting := quitting m; target := target m;
       startupTime := startupTime m |} in
  RecalculateDurations now m.

(** [func initialModel(target time.Duration) model] *)
Definition initialModel (target : Duration) : model :=
  {| durations := []; total := 0; totalProvisionnal := 0; overtime := 0;
     planned := EmptyString; quitting := false; target := target;
     startupTime := zeroTime |}.

(** The messages [Update] tells apart. *)
Inductive msg : Type :=
| WindowSizeMsg
| systemStartupTime (up : Time)
| KeyMsg (keypress : string)
| otherMsg.

(** [func (m model) Update(msg tea.Msg) (tea.Model, tea.Cmd)]: the model
    it returns. *)
Definition Update (r : readings) (message : msg) (m : model) : model :=
  match message with
  | WindowSizeMsg => m
  | systemStartupTime up =>
      let m :=
        {| durations := durations m; total := total m;
           totalProvisionnal := totalProvisionnal m; overtime := overtime m;
           planned := planned m; quitting := quitting m; target := target m;
           startupTime := up |} in
      if len (durations m) =? 0
      then model_Append (nowTotals r) (startupTime m) m
      else m
  | KeyMsg keypress =>
      if (String.eqb keypress "q" || String.eqb keypress "ctrl+c")%bool then
        {| durations := durations m; total := total m;
           totalProvisionnal := totalProvisionnal m; overtime := overtime m;
           planned := planned m; quitting := true; target := target m;
           startupTime := startupTime m |}
      else if String.eqb keypress "enter" then
        match ParseTime (nowParse r) (inputValue r) with
        | inr _ => m
        | inl t => model_Append (nowTotals r) t m
        end
      else if String.eqb keypress "x" then
        let m :=
          {| durations := RemoveItem (durations m) (listIndex r);
             total := total m; totalProvisionnal := totalProvisionnal m;
             overtime := overtime m; planned := planned m;
             quitting := quitting m; target := target m;
             startupTime := startupTime m |} in
        RecalculateDurations (nowTotals r) m
      else m
  | otherMsg => m
  end.

(** The model after a run of messages, each with its readings. *)
Fixpoint run (events : list (readings * msg)) (m : model) : model :=
  match events with
  | [] => m
  | (r, message) :: events' => run events' (Update r message m)
  end.


(** What the handlers of [Update] keep: the ledger in order, the total that
    of the ledger, the target as given at the start. *)
Definition ledgerInvariant (target0 : Duration) (m : model) : Prop :=
  Sorted Z.le (durations m) /\
  total m = SumPairedDurationsWithNow (durations m) zeroTime /\
  target m = target0.

(** ** Package platform *)

(** How a call ends: it returns, or it panics. *)
Inductive outcome (T : Type) : Type :=
| Returns (v : T)
| Panics.
Arguments Returns {T} v.
Arguments Panics {T}.

(** The error of a failed command. *)
Inductive execError : Type := ExecError (text : string).

(** The slice expression [s[lo:hi]] of a string: out of bounds it panics
    ([None]). *)
Definition sliceString (s : string) (lo hi : nat) : option string :=
  if (lo <=? hi)%nat && (hi <=? String.length s)%nat
  then Some (substring lo (hi - lo) s)
  else None.

(** [v, _ := strconv.Atoi(s)] for a text too short to overflow: a failed
    conversion leaves zero. *)
Definition atoiOrZero (s : string) : Z := default 0 (Atoi s).

(** [strings.Trim(s, cutset)] on ASCII text. *)
Fixpoint inCutset (c : ascii) (cutset : string) : bool :=
  match cutset with
  | EmptyString => false
  | String c' cutset' => Ascii.eqb c c' || inCutset c cutset'
  end.

Fixpoint trimLeftCutset (s cutset : string) : string :=
  match s with
  | String c s' => if inCutset c cutset then trimLeftCutset s' cutset else s
  | EmptyString => EmptyString
  end.

Fixpoint trimRightCutset (s cutset : string) : string :=
  match s with
  | EmptyString => EmptyString
  | String c s' =>
      match trimRightCutset s' cutset with
      | EmptyString =>
          if inCutset c cutset then EmptyString else String c EmptyString
      | t => String c t
      end
  end.

Definition Trim (s cutset : string) : string :=
  trimRightCutset (trimLeftCutset s cutset) cutset.

(** The end of both [Startup] functions: [text[0:2]] and [text[3:5]] read
    with their errors dropped, then today's date at that hour and minute,
    with a nil error. *)
Definition startupClock (text : string) (now : Time)
  : outcome (Time * option execError) :=
  match sliceString text 0 2 with
  | None => Panics
  | Some hoursText =>
      let hours := atoiOrZero hoursText in
      match sliceString text 3 5 with
      | None => Panics
      | Some minutesText =>
          let minutes := atoiOrZero minutesText in
          Returns (Date (dayOf now) hours minutes 0 0, None)
      end
  end.

(** [func Startup() (time.Time, error)] of startup_linux.go; [cmd] is what
    [exec.Command("who", "-b").Output()] gave. *)
Definition Startup_linux (cmd : string + execError) (now : Time)
  : outcome (Time * option execError) :=
  match cmd with
  | inr err => Returns (zeroTime, Some err)
  | inl output =>
      let trimmed := TrimSpace output in
      match sliceString trimmed 24 (String.length trimmed) with
      | None => Panics
      | Some startupTimeStr => startupClock startupTimeStr now
      end
  end.

(** [func Startup() (time.Time, error)] of the Windows build; [cmd] is
    what the PowerShell command gave. *)
Definition Startup_windows (cmd : string + execError) (now : Time)
  : outcome (Time * option execError) :=
  let outputStr :=
    match cmd with
    | inl output => Trim output (String "013" (String "010" EmptyString))
    | inr _ => EmptyString
    end in
  startupClock outputStr now.

(** * Properties *)

(** ** Durations as 64-bit integers *)

Lemma wrap64_range z : inInt64 (wrap64 z).
Proof.
  unfold inInt64, wrap64, minDuration, maxDuration.
  pose proof (Z.mod_pos_bound (z + 2 ^ 63) (2 ^ 64)). lia.
Qed.

Lemma wrap64_id z : inInt64 z -> wrap64 z = z.
Proof.
  unfold inInt64, wrap64, minDuration, maxDuration. intros Hz.
  rewrite Z.mod_small; lia.
Qed.

Lemma wrap64_add_l a b : wrap64 (wrap64 a + b) = wrap64 (a + b).
Proof.
  unfold wrap64. f_equal.
  replace ((a + 2 ^ 63) mod 2 ^ 64 - 2 ^ 63 + b + 2 ^ 63)
    with ((a + 2 ^ 63) mod 2 ^ 64 + b) by lia.
  rewrite Zplus_mod_idemp_l. f_equal. lia.
Qed.

Lemma wrap64_add_r a b : wrap64 (a + wrap64 b) = wrap64 (a + b).
Proof. rewrite Z.add_comm, wrap64_add_l. f_equal. lia. Qed.

Lemma add64_range a b : inInt64 (add64 a b).
Proof. apply wrap64_range. Qed.

Lemma add64_assoc a b c : add64 (add64 a b) c = add64 a (add64 b c).
Proof.
  unfold add64. rewrite wrap64_add_l, wrap64_add_r. f_equal. lia.
Qed.

Lemma add64_0_r a : inInt64 a -> add64 a 0 = a.
Proof. intros Ha. unfold add64. rewrite Z.add_0_r. by apply wrap64_id. Qed.

Lemma add64_0_l a : inInt64 a -> add64 0 a = a.
Proof. intros Ha. unfold add64. by apply wrap64_id. Qed.

Lemma add64_exact a b : inInt64 (a + b) -> add64 a b = a + b.
Proof. apply wrap64_id. Qed.

Lemma inInt64_0 : inInt64 0.
Proof. unfold inInt64, minDuration, maxDuration. lia. Qed.

(** [Sub] keeps the sign of the difference and stays a Duration. *)
Lemma Sub_range t u : inInt64 (Sub t u).
Proof.
  unfold Sub, inInt64, minDuration, maxDuration.
  repeat case_match; lia.
Qed.

Lemma Sub_pos t u : (0 <? Sub t u) = Before u t.
Proof.
  unfold Sub, Before, minDuration, maxDuration.
  repeat case_match; lia.
Qed.

Lemma Sub_exact t u : inInt64 (t - u) -> Sub t u = t - u.
Proof.
  unfold Sub, inInt64, minDuration, maxDuration. intros.
  repeat case_match; lia.
Qed.

(** ** Sorting by [Before] *)

Lemma sortInsert_perm x (l : list Z) : sortInsert Before x l ≡ₚ x :: l.
Proof.
  induction l as [|y l IH]; simpl; [done|].
  destruct (Before x y); [done|].
  rewrite IH. apply Permutation_swap.
Qed.

Lemma sortSlice_perm (l : list Z) : sortSlice Before l ≡ₚ l.
Proof.
  induction l as [|x l IH]; simpl; [done|].
  by rewrite sortInsert_perm, IH.
Qed.

Lemma sortInsert_HdRel a x (l : list Z) :
  a <= x -> HdRel Z.le a l -> HdRel Z.le a (sortInsert Before x l).
Proof.
  intros Hax Hl. destruct l as [|y l]; simpl; [by constructor|].
  destruct (Before x y); constructor; [done|]. by inversion Hl.
Qed.

Lemma sortInsert_sorted x (l : list Z) :
  Sorted Z.le l -> Sorted Z.le (sortInsert Before x l).
Proof.
  induction 1 as [|y l Hl IH Hhd]; simpl; [by repeat constructor|].
  destruct (Before x y) eqn:Hxy; unfold Before in Hxy.
  - apply Z.ltb_lt in Hxy. repeat constructor; [done..|lia].
  - apply Z.ltb_ge in Hxy. constructor; [done|].
    by apply sortInsert_HdRel.
Qed.

Lemma sortSlice_sorted (l : list Z) : Sorted Z.le (sortSlice Before l).
Proof.
  induction l as [|x l IH]; simpl; [constructor|].
  by apply sortInsert_sorted.
Qed.

(** The contract of [sort.Slice] determines its result: an ordered
    arrangement of the elements is the one [sortSlice] computes. *)
Lemma sortSlice_unique (l l' : list Z) :
  Sorted Z.le l' -> l' ≡ₚ l -> l' = sortSlice Before l.
Proof.
  intros Hs Hp. apply (Sorted_unique Z.le); [done|apply sortSlice_sorted|].
  by rewrite sortSlice_perm.
Qed.

Lemma sortSlice_id (l : list Z) : Sorted Z.le l -> sortSlice Before l = l.
Proof. intros Hs. symmetry. by apply sortSlice_unique. Qed.

Lemma sortSlice_length (l : list Z) : length (sortSlice Before l) = length l.
Proof. by rewrite sortSlice_perm. Qed.

(** ** The loop, by index and along the list *)

Lemma pairLoop_pairFold fuel (tlist : list Z) i total :
  (length tlist <= i + 2 * fuel)%nat ->
  pairLoop fuel tlist i total = pairFold total (drop i tlist).
Proof.
  revert i total. induction fuel as [|fuel IH]; intros i total Hfuel.
  - rewrite drop_ge by lia. done.
  - simpl. destruct (tlist !! i) as [start|] eqn:Hi.
    + destruct (tlist !! (i + 1)%nat) as [end_|] eqn:Hi1.
      * rewrite IH by lia.
        rewrite (drop_S tlist start i Hi).
        replace (S i) with (i + 1)%nat by lia.
        rewrite (drop_S tlist end_ (i + 1) Hi1).
        simpl. by replace (S (i + 1)) with (i + 2)%nat by lia.
      * rewrite (drop_S tlist start i Hi).
        apply lookup_ge_None in Hi1.
        rewrite drop_ge by lia. done.
    + apply lookup_ge_None in Hi. rewrite drop_ge by lia. done.
Qed.

(** On an ordered sequence the guard [d > 0] changes nothing: the loop
    computes the paired sum. *)
Lemma pairFold_sorted total (l : list Z) :
  inInt64 total -> Sorted Z.le l ->
  pairFold total l = add64 total (pairedSum l).
Proof.
  revert total. induction l as [l IH] using (induction_ltof1 _ (@length Z)).
  unfold ltof in *. intros total Ht Hs.
  destruct l as [|s [|e rest]]; simpl.
  - by rewrite add64_0_r.
  - by rewrite add64_0_r.
  - assert (s <= e) as Hse.
    { inversion Hs as [|?? _ Hhd]; subst. by inversion Hhd. }
    assert (Sorted Z.le rest) as Hrest.
    { inversion Hs as [|?? Hs' _]; subst. by inversion Hs'. }
    rewrite Sub_pos. unfold Before.
    destruct (s <? e) eqn:Hlt.
    + rewrite IH; [|simpl; lia|apply add64_range|done].
      by rewrite add64_assoc.
    + apply Z.ltb_ge in Hlt. assert (e = s) as -> by lia.
      rewrite IH; [|simpl; lia|done..].
      rewrite (Sub_exact s s) by (rewrite Z.sub_diag; apply inInt64_0).
      rewrite Z.sub_diag. f_equal.
      symmetry. apply add64_0_l.
      destruct rest as [|? [|? ?]]; simpl;
        [apply inInt64_0..|apply add64_range].
Qed.

Lemma pairedSum_range (l : list Z) : inInt64 (pairedSum l).
Proof.
  destruct l as [|? [|? ?]]; simpl; [apply inInt64_0..|apply add64_range].
Qed.

(** What [SumPairedDurationsWithNow] returns, in one equation. *)
Lemma SumPairedDurationsWithNow_eq (times : list Z) now :
  SumPairedDurationsWithNow times now =
  pairedSum (sortSlice Before
    (if (len times mod 2 =? 1) && negb (IsZero now) then times ++ [now]
     else times)).
Proof.
  unfold SumPairedDurationsWithNow.
  destruct (len times =? 0) eqn:Hlen.
  - apply Z.eqb_eq in Hlen. unfold len in Hlen.
    destruct times; [done|simpl in Hlen; lia].
  - simpl. rewrite pairLoop_pairFold by lia. rewrite drop_0.
    rewrite pairFold_sorted; [|apply inInt64_0|apply sortSlice_sorted].
    apply add64_0_l, pairedSum_range.
Qed.

(** ** Ordered sequences *)

Lemma Forall_sublist (P : Z -> Prop) (l1 l2 : list Z) :
  l1 `sublist_of` l2 -> Forall P l2 -> Forall P l1.
Proof.
  induction 1 as [|x l1 l2 Hsub IH|x l1 l2 Hsub IH]; intros Hall;
    [done| |]; inversion Hall; subst; [constructor|]; auto.
Qed.

Lemma StronglySorted_sublist (l1 l2 : list Z) :
  l1 `sublist_of` l2 -> StronglySorted Z.le l2 -> StronglySorted Z.le l1.
Proof.
  induction 1 as [|x l1 l2 Hsub IH|x l1 l2 Hsub IH]; intros Hs.
  - constructor.
  - apply StronglySorted_inv in Hs as [Hs Hall]. constructor; [by apply IH|].
    by apply (Forall_sublist _ l1 l2).
  - apply StronglySorted_inv in Hs as [Hs _]. by apply IH.
Qed.

Lemma Sorted_sublist (l1 l2 : list Z) :
  l1 `sublist_of` l2 -> Sorted Z.le l2 -> Sorted Z.le l1.
Proof.
  intros Hsub Hs. apply StronglySorted_Sorted.
  apply (StronglySorted_sublist l1 l2); [done|].
  by apply (Sorted_StronglySorted Z.le).
Qed.

Lemma len_parity_odd (l : list Z) : (len l mod 2 =? 1) = true <-> Nat.Odd (length l).
Proof.
  unfold len. rewrite Z.eqb_eq. split.
  - intros H. exists (Z.to_nat (Z.of_nat (length l) / 2)).
    pose proof (Z.div_mod (Z.of_nat (length l)) 2). lia.
  - intros [k Hk]. rewrite Hk.
    replace (Z.of_nat (2 * k + 1)) with (1 + Z.of_nat k * 2) by lia.
    by rewrite Z_mod_plus_full.
Qed.

Lemma len_parity_even (l : list Z) : Nat.Even (length l) -> (len l mod 2 =? 1) = false.
Proof.
  intros [k Hk]. unfold len. rewrite Hk.
  replace (Z.of_nat (2 * k)) with (0 + Z.of_nat k * 2) by lia.
  by rewrite Z_mod_plus_full.
Qed.

(** A last element after an even number of elements is in no pair. *)
Lemma pairedSum_snoc_even (l : list Z) x :
  Nat.Even (length l) -> pairedSum (l ++ [x]) = pairedSum l.
Proof.
  induction l as [l IH] using (induction_ltof1 _ (@length Z)).
  unfold ltof in *. intros Hev.
  destruct l as [|s [|e rest]]; simpl; [done| |].
  - destruct Hev as [k Hk]. simpl in Hk. lia.
  - rewrite IH; [done|simpl; lia|].
    destruct Hev as [k Hk]. simpl in Hk. exists (k - 1)%nat. lia.
Qed.

(** An ordered sequence of odd length ends in its latest element. *)
Lemma sorted_split_last (l : list Z) :
  l <> [] -> Sorted Z.le l ->
  exists prefix lastT, l = prefix ++ [lastT] /\ Forall (fun t => t <= lastT) l.
Proof.
  intros Hne Hs. destruct (decide (l = [])) as [|_]; [done|].
  induction l as [|x l IH] using rev_ind; [done|].
  exists l, x. split; [done|].
  apply (Sorted_StronglySorted Z.le) in Hs.
  apply StronglySorted_app in Hs as (Hall & _ & _).
  apply Forall_app. split.
  - apply List.Forall_forall. intros y Hy.
    apply Hall; [by apply list_elem_of_In|]. by apply list_elem_of_singleton.
  - by repeat constructor.
Qed.

(** Within a window that a Duration can measure, the paired sum is the
    plain sum of the spans and cannot exceed the window. *)
Lemma pairedSpan_bounds (l : list Z) lo hi :
  lo <= hi ->
  StronglySorted Z.le l -> Forall (fun t => lo <= t <= hi) l ->
  0 <= pairedSpan l <= hi - lo.
Proof.
  revert lo. induction l as [l IH] using (induction_ltof1 _ (@length Z)).
  unfold ltof in *. intros lo Hlo Hs Hall.
  destruct l as [|s [|e rest]]; simpl.
  - lia.
  - lia.
  - apply StronglySorted_inv in Hs as [Hs Hs1].
    apply StronglySorted_inv in Hs as [Hs Hs2].
    inversion Hall as [|?? Hs_b Hall']; subst.
    inversion Hall' as [|?? He_b Hall'']; subst.
    inversion Hs1 as [|?? Hse _]; subst.
    assert (0 <= pairedSpan rest <= hi - e) as Hrest.
    { apply IH; [simpl; lia|lia|done|].
      apply List.Forall_forall. intros t Ht. split.
      - rewrite List.Forall_forall in Hs2. by apply Hs2.
      - rewrite List.Forall_forall in Hall''. by apply Hall''. }
    lia.
Qed.

Lemma pairedSum_exact (l : list Z) lo hi :
  lo <= hi -> hi - lo <= maxDuration ->
  StronglySorted Z.le l -> Forall (fun t => lo <= t <= hi) l ->
  pairedSum l = pairedSpan l.
Proof.
  revert lo. induction l as [l IH] using (induction_ltof1 _ (@length Z)).
  unfold ltof in *. intros lo Hlo Hwin Hs Hall.
  destruct l as [|s [|e rest]]; simpl; [done..|].
  pose proof (pairedSpan_bounds _ lo hi Hlo Hs Hall) as Hb. simpl in Hb.
  apply StronglySorted_inv in Hs as [Hs Hs1].
  apply StronglySorted_inv in Hs as [Hs Hs2].
  inversion Hall as [|?? Hs_b Hall']; subst.
  inversion Hall' as [|?? He_b Hall'']; subst.
  inversion Hs1 as [|?? Hse _]; subst.
  assert (Forall (fun t => e <= t <= hi) rest) as Hrest.
  { apply List.Forall_forall. intros t Ht. split.
    - rewrite List.Forall_forall in Hs2. by apply Hs2.
    - rewrite List.Forall_forall in Hall''. by apply Hall''. }
  pose proof (pairedSpan_bounds rest e hi ltac:(lia) Hs Hrest) as Hb'.
  rewrite (IH rest ltac:(simpl; lia) e) by (done || lia).
  assert (inInt64 (e - s)) as Hd.
  { unfold inInt64, minDuration, maxDuration in *. lia. }
  rewrite (Sub_exact _ _ Hd). apply add64_exact.
  unfold inInt64, minDuration, maxDuration in *. lia.
Qed.

(** Clock times of one day are apart by the difference of their fields. *)
Lemma Sub_same_day day h1 h2 :
  -24 <= h2 - h1 <= 24 ->
  Sub (Date day h2 0 0 0) (Date day h1 0 0 0) = (h2 - h1) * Hour.
Proof.
  intros Hh.
  assert (Date day h2 0 0 0 - Date day h1 0 0 0 = (h2 - h1) * Hour) as Hd.
  { unfold Date. ring. }
  rewrite Sub_exact; [done|]. rewrite Hd.
  unfold inInt64, minDuration, maxDuration, Hour, Minute, Second. lia.
Qed.

Lemma Date_hours_le day h1 h2 :
  h1 <= h2 -> Date day h1 0 0 0 <= Date day h2 0 0 0.
Proof. unfold Date, Hour, Minute, Second. lia. Qed.

Lemma Date_hours_nonzero day h : 0 < h < 24 -> IsZero (Date day h 0 0 0) = false.
Proof.
  intros Hh. apply Z.eqb_neq. unfold Date, nsPerDay, Hour, Minute, Second. lia.
Qed.

(** Within a window no wider than the longest Duration the function
    returns the plain sum of the spans of the pairs. *)
Lemma SumPairedDurationsWithNow_span (times : list Z) now lo :
  Forall (fun t => lo <= t <= lo + maxDuration) times ->
  (Nat.Odd (length times) -> now <> zeroTime ->
   lo <= now <= lo + maxDuration) ->
  SumPairedDurationsWithNow times now =
  pairedSpan (sortSlice Before
    (if (len times mod 2 =? 1) && negb (IsZero now) then times ++ [now]
     else times)) /\
  0 <= SumPairedDurationsWithNow times now <= maxDuration.
Proof.
  intros Hall Hnow. rewrite SumPairedDurationsWithNow_eq.
  match goal with |- context [sortSlice Before ?l] => set (tlist := l) end.
  assert (Forall (fun t => lo <= t <= lo + maxDuration) tlist) as Hin.
  { subst tlist. destruct (len times mod 2 =? 1) eqn:Hpar; [|done].
    destruct (IsZero now) eqn:Hz; [done|]. simpl.
    apply Forall_app. split; [done|]. constructor; [|done].
    apply Hnow; [by apply len_parity_odd|].
    unfold IsZero, zeroTime in *. by apply Z.eqb_neq. }
  assert (Forall (fun t => lo <= t <= lo + maxDuration)
            (sortSlice Before tlist)) as Hin'.
  { by rewrite sortSlice_perm. }
  pose proof (Sorted_StronglySorted Z.le _ (sortSlice_sorted tlist)) as Hs.
  assert (lo <= lo + maxDuration) as Hlo by (unfold maxDuration; lia).
  rewrite (pairedSum_exact _ lo (lo + maxDuration)); [|done|lia|done..].
  pose proof (pairedSpan_bounds _ lo (lo + maxDuration) Hlo Hs Hin').
  split; [done|lia].
Qed.

Lemma pairedSpan_snoc_even (l : list Z) x :
  Nat.Even (length l) -> pairedSpan (l ++ [x]) = pairedSpan l.
Proof.
  induction l as [l IH] using (induction_ltof1 _ (@length Z)).
  unfold ltof in *. intros Hev.
  destruct l as [|s [|e rest]]; simpl; [done| |].
  - destruct Hev as [k Hk]. simpl in Hk. lia.
  - rewrite IH; [done|simpl; lia|].
    destruct Hev as [k Hk]. simpl in Hk. exists (k - 1)%nat. lia.
Qed.

(** ** The claims on [SumPairedDurationsWithNow] *)

(** C1.  For a sequence of odd length and a non-zero [now], the function
    sums end minus start over the consecutive pairs of the ascending
    arrangement of the sequence extended by [now], as Durations, and as
    plain integers when the timestamps lie in one window that a Duration
    can measure; for 15:00, 10:00, 07:00 and now = 16:00 of one day the
    result is 4 hours. *)
Theorem C1_odd_length_appends_now :
  (forall (times : list Z) (now : Z),
     Nat.Odd (length times) -> now <> zeroTime ->
     let tlist := sortTimesAscending (times ++ [now]) in
     tlist ≡ₚ times ++ [now] /\ Sorted Z.le tlist /\
     SumPairedDurationsWithNow times now = pairedSum tlist) /\
  (forall (times : list Z) (now lo : Z),
     Nat.Odd (length times) -> now <> zeroTime ->
     Forall (fun t => lo <= t <= lo + maxDuration) (times ++ [now]) ->
     SumPairedDurationsWithNow times now
     = pairedSpan (sortTimesAscending (times ++ [now]))) /\
  (forall day,
     SumPairedDurationsWithNow
       [Date day 15 0 0 0; Date day 10 0 0 0; Date day 7 0 0 0]
       (Date day 16 0 0 0) = 4 * Hour).
Proof.
  assert (forall (times : list Z) now,
            Nat.Odd (length times) -> now <> zeroTime ->
            (len times mod 2 =? 1) && negb (IsZero now) = true) as Hcond.
  { intros times now Hodd Hnow. apply len_parity_odd in Hodd. rewrite Hodd.
    unfold IsZero, zeroTime in *. by destruct (Z.eqb_spec now 0). }
  split; [|split].
  - intros times now Hodd Hnow tlist. subst tlist. unfold sortTimesAscending.
    split; [apply sortSlice_perm|]. split; [apply sortSlice_sorted|].
    rewrite SumPairedDurationsWithNow_eq. by rewrite Hcond.
  - intros times now lo Hodd Hnow Hwin. apply Forall_app in Hwin as [Ht Hn].
    destruct (SumPairedDurationsWithNow_span times now lo Ht) as [-> _].
    { intros _ _. by inversion Hn. }
    by rewrite Hcond.
  - intros day. rewrite SumPairedDurationsWithNow_eq.
    rewrite Date_hours_nonzero by lia.
    change (_ && _) with true. cbv iota.
    rewrite <- (sortSlice_unique _
      [Date day 7 0 0 0; Date day 10 0 0 0; Date day 15 0 0 0;
       Date day 16 0 0 0]).
    + cbn [pairedSum]. rewrite !Sub_same_day by lia. reflexivity.
    + repeat constructor; apply Date_hours_le; lia.
    + simpl. solve_Permutation.
Qed.

Lemma C1_odd_length_appends_now_witness :
  SumPairedDurationsWithNow [Date 739251 8 0 0 0] (Date 739251 9 30 0 0)
  = pairedSum (sortTimesAscending [Date 739251 8 0 0 0; Date 739251 9 30 0 0]).
Proof.
  refine (proj2 (proj2
    (proj1 C1_odd_length_appends_now
       [Date 739251 8 0 0 0] (Date 739251 9 30 0 0) _ _))).
  - exists 0%nat. reflexivity.
  - unfold zeroTime. vm_compute. discriminate.
Defined.

(** C2.  For a sequence of odd length and the zero time as [now] nothing
    is appended: the ascending arrangement ends in its latest entry, which
    is in no pair, and the result is the paired sum of the even-length
    prefix before it (as Durations, and as plain integers within a window
    that a Duration can measure); for 08:00, 12:00, 13:00 the result is
    4 hours. *)
Theorem C2_odd_length_zero_now :
  (forall times : list Z,
     Nat.Odd (length times) ->
     exists prefix lastT,
       sortTimesAscending times = prefix ++ [lastT] /\
       Forall (fun t => t <= lastT) times /\
       Nat.Even (length prefix) /\
       SumPairedDurationsWithNow times zeroTime = pairedSum prefix /\
       forall lo,
         Forall (fun t => lo <= t <= lo + maxDuration) times ->
         SumPairedDurationsWithNow times zeroTime = pairedSpan prefix) /\
  (forall day,
     SumPairedDurationsWithNow
       [Date day 8 0 0 0; Date day 12 0 0 0; Date day 13 0 0 0] zeroTime
     = 4 * Hour).
Proof.
  split.
  - intros times Hodd. unfold sortTimesAscending.
    destruct (sorted_split_last (sortSlice Before times))
      as (prefix & lastT & Heq & Hmax).
    { intros Hnil. apply (f_equal length) in Hnil.
      rewrite sortSlice_length in Hnil. destruct Hodd as [k Hk].
      simpl in Hnil. lia. }
    { apply sortSlice_sorted. }
    assert (Nat.Even (length prefix)) as Hev.
    { apply (f_equal length) in Heq.
      rewrite sortSlice_length, length_app in Heq. simpl in Heq.
      destruct Hodd as [k Hk]. exists k. lia. }
    exists prefix, lastT. split; [done|]. split.
    { by rewrite <- (sortSlice_perm times). }
    split; [done|]. split.
    + rewrite SumPairedDurationsWithNow_eq.
      replace (IsZero zeroTime) with true by done.
      rewrite andb_false_r, Heq. by apply pairedSum_snoc_even.
    + intros lo Hwin.
      destruct (SumPairedDurationsWithNow_span times zeroTime lo Hwin)
        as [-> _]; [done|].
      replace (IsZero zeroTime) with true by done.
      rewrite andb_false_r, Heq. by apply pairedSpan_snoc_even.
  - intros day. rewrite SumPairedDurationsWithNow_eq.
    replace (IsZero zeroTime) with true by done.
    rewrite andb_false_r, sortSlice_id.
    + cbn [pairedSum]. rewrite !Sub_same_day by lia. reflexivity.
    + repeat constructor; apply Date_hours_le; lia.
Qed.

Lemma C2_odd_length_zero_now_witness :
  exists prefix lastT,
    sortTimesAscending [Date 739251 13 0 0 0; Date 739251 8 0 0 0;
                        Date 739251 12 0 0 0] = prefix ++ [lastT] /\
    Forall (fun t => t <= lastT)
      [Date 739251 13 0 0 0; Date 739251 8 0 0 0; Date 739251 12 0 0 0] /\
    Nat.Even (length prefix) /\
    SumPairedDurationsWithNow
      [Date 739251 13 0 0 0; Date 739251 8 0 0 0; Date 739251 12 0 0 0]
      zeroTime = pairedSum prefix /\
    forall lo,
      Forall (fun t => lo <= t <= lo + maxDuration)
        [Date 739251 13 0 0 0; Date 739251 8 0 0 0; Date 739251 12 0 0 0] ->
      SumPairedDurationsWithNow
        [Date 739251 13 0 0 0; Date 739251 8 0 0 0; Date 739251 12 0 0 0]
        zeroTime = pairedSpan prefix.
Proof.
  apply (proj1 C2_odd_length_zero_now).
  exists 1%nat. reflexivity.
Defined.

(** C4.  For a sequence of even length the result does not depend on
    [now]; for 08:00, 12:00, 13:00, 17:00 it is 8 hours whatever [now]. *)
Theorem C4_even_length_ignores_now :
  (forall (times : list Z) (now1 now2 : Z),
     Nat.Even (length times) ->
     SumPairedDurationsWithNow times now1
     = SumPairedDurationsWithNow times now2) /\
  (forall day now,
     SumPairedDurationsWithNow
       [Date day 8 0 0 0; Date day 12 0 0 0; Date day 13 0 0 0;
        Date day 17 0 0 0] now
     = 8 * Hour).
Proof.
  split.
  - intros times now1 now2 Hev.
    rewrite !SumPairedDurationsWithNow_eq.
    by rewrite (len_parity_even _ Hev).
  - intros day now. rewrite SumPairedDurationsWithNow_eq.
    change (_ && _) with false. cbv iota.
    rewrite sortSlice_id.
    + cbn [pairedSum]. rewrite !Sub_same_day by lia. reflexivity.
    + repeat constructor; apply Date_hours_le; lia.
Qed.

Lemma C4_even_length_ignores_now_witness :
  SumPairedDurationsWithNow [Date 739251 9 0 0 0; Date 739251 8 0 0 0] zeroTime
  = SumPairedDurationsWithNow [Date 739251 9 0 0 0; Date 739251 8 0 0 0]
      (Date 739251 7 0 0 0).
Proof.
  apply (proj1 C4_even_length_ignores_now).
  exists 1%nat. reflexivity.
Defined.

(** C5.  In the loop a pair whose end is not strictly after its start
    leaves the total as it is, a trailing entry without a partner leaves
    the total as it is, and the empty sequence gives zero; so do a single
    entry without [now] and a pair of equal instants. *)
Theorem C5_non_positive_pairs_contribute_zero :
  (forall fuel (tlist : list Z) i total start end_,
     tlist !! i = Some start -> tlist !! (i + 1)%nat = Some end_ ->
     Before start end_ = false ->
     pairLoop (S fuel) tlist i total = pairLoop fuel tlist (i + 2) total) /\
  (forall fuel (tlist : list Z) i total start,
     tlist !! i = Some start -> tlist !! (i + 1)%nat = None ->
     pairLoop fuel tlist i total = total) /\
  (forall now, SumPairedDurationsWithNow [] now = 0) /\
  (forall t, SumPairedDurationsWithNow [t] zeroTime = 0) /\
  (forall t now, SumPairedDurationsWithNow [t; t] now = 0).
Proof.
  split; [|split; [|split; [|split]]].
  - intros fuel tlist i total start end_ Hi Hi1 Hnot.
    simpl. rewrite Hi, Hi1, Sub_pos, Hnot. done.
  - intros fuel tlist i total start Hi Hi1.
    destruct fuel as [|fuel]; simpl; [done|]. by rewrite Hi, Hi1.
  - done.
  - intros t. rewrite SumPairedDurationsWithNow_eq. done.
  - intros t now. rewrite SumPairedDurationsWithNow_eq.
    change (_ && _) with false. cbv iota.
    rewrite sortSlice_id by (repeat constructor; lia).
    simpl. rewrite Sub_exact; rewrite Z.sub_diag; [done|apply inInt64_0].
Qed.

Lemma C5_non_positive_pairs_contribute_zero_witness :
  pairLoop 2 [5; 5; 7; 9] 0 0 = pairLoop 1 [5; 5; 7; 9] 2 0.
Proof.
  apply (proj1 C5_non_positive_pairs_contribute_zero 1%nat [5; 5; 7; 9]
           0%nat 0 5 5); reflexivity.
Defined.

(** C10, as the code has it.  The total is a 64-bit count: two spans of
    200 years add up to a negative duration. *)
Lemma C10_total_can_wrap_negative :
  SumPairedDurationsWithNow
    [Date 0 0 0 0 0; Date 73000 0 0 0 0; Date 73000 0 0 0 0;
     Date 146000 0 0 0 0] zeroTime < 0.
Proof. vm_compute. reflexivity. Qed.

(** C10.  When every timestamp that takes part lies in one window no wider
    than the longest Duration (about 292 years), the total is never
    negative. *)
Theorem C10_total_non_negative_in_window (times : list Z) (now lo : Z) :
  Forall (fun t => lo <= t <= lo + maxDuration) times ->
  (Nat.Odd (length times) -> now <> zeroTime ->
   lo <= now <= lo + maxDuration) ->
  0 <= SumPairedDurationsWithNow times now.
Proof.
  intros Hall Hnow.
  by destruct (SumPairedDurationsWithNow_span times now lo Hall Hnow)
    as [_ [? _]].
Qed.

Lemma C10_total_non_negative_in_window_witness :
  0 <= SumPairedDurationsWithNow
         [Date 739251 15 0 0 0; Date 739251 10 0 0 0; Date 739251 7 0 0 0]
         (Date 739251 16 0 0 0).
Proof.
  apply (C10_total_non_negative_in_window _ _ (Date 739251 0 0 0 0)).
  - repeat constructor; vm_compute; discriminate.
  - intros _ _. split; vm_compute; discriminate.
Defined.

(** ** The claims on [Append] and [RemoveItem] *)

Lemma RemoveItem_valid (l : list Z) i :
  0 <= i < len l ->
  RemoveItem l i = sortTimesAscending (delete (Z.to_nat i) l).
Proof.
  intros Hi. unfold RemoveItem.
  destruct (Z.ltb_spec i 0); [lia|].
  destruct (Z.geb_spec i (len l)); [lia|]. simpl.
  rewrite delete_take_drop. do 3 f_equal. lia.
Qed.

Lemma RemoveItem_invalid (l : list Z) i :
  i < 0 \/ len l <= i -> RemoveItem l i = l.
Proof.
  intros Hi. unfold RemoveItem.
  destruct (Z.ltb_spec i 0); [done|].
  destruct (Z.geb_spec i (len l)); [done|lia].
Qed.

(** C8, as the code has it.  [RemoveItem] sorts what is left: on a
    sequence that is not in order the entries that remain change places. *)
Lemma C8_remove_reorders_unsorted :
  0 <= 2 < len [Date 739251 10 0 0 0; Date 739251 8 0 0 0; Date 739251 12 0 0 0]
  /\ ~ (RemoveItem
          [Date 739251 10 0 0 0; Date 739251 8 0 0 0; Date 739251 12 0 0 0] 2
        `sublist_of`
        [Date 739251 10 0 0 0; Date 739251 8 0 0 0; Date 739251 12 0 0 0]).
Proof.
  split; [by vm_compute|].
  vm_compute. intros Hsub.
  repeat match goal with
         | H : sublist _ _ |- _ => inversion H; clear H; subst
         end.
Qed.

(** C8.  At a valid index [RemoveItem] returns one element less: the
    remaining elements in ascending order, which on a sequence in
    ascending order is the sequence with the element taken out, the others
    in place.  At an index that is negative or not below the length it
    returns the sequence as it is. *)
Theorem C8_remove_item :
  (forall (l : list Z) i,
     0 <= i < len l ->
     length (RemoveItem l i) = (length l - 1)%nat /\
     RemoveItem l i ≡ₚ delete (Z.to_nat i) l /\
     Sorted Z.le (RemoveItem l i)) /\
  (forall (l : list Z) i,
     Sorted Z.le l -> 0 <= i < len l ->
     RemoveItem l i = delete (Z.to_nat i) l /\
     RemoveItem l i `sublist_of` l) /\
  (forall (l : list Z) i, i < 0 \/ len l <= i -> RemoveItem l i = l).
Proof.
  split; [|split].
  - intros l i Hi. rewrite RemoveItem_valid by done.
    unfold sortTimesAscending. split; [|split].
    + rewrite sortSlice_length. apply length_delete.
      apply lookup_lt_is_Some. unfold len in Hi. lia.
    + apply sortSlice_perm.
    + apply sortSlice_sorted.
  - intros l i Hs Hi. rewrite RemoveItem_valid by done.
    unfold sortTimesAscending. rewrite sortSlice_id.
    + split; [done|apply sublist_delete].
    + apply (Sorted_sublist _ l); [apply sublist_delete|done].
  - apply RemoveItem_invalid.
Qed.

Lemma C8_remove_item_witness :
  RemoveItem [Date 739251 8 0 0 0; Date 739251 10 0 0 0; Date 739251 12 0 0 0] 1
  = [Date 739251 8 0 0 0; Date 739251 12 0 0 0].
Proof.
  refine (proj1 (proj1 (proj2 C8_remove_item)
    [Date 739251 8 0 0 0; Date 739251 10 0 0 0; Date 739251 12 0 0 0] 1 _ _)).
  - repeat constructor; vm_compute; discriminate.
  - split; vm_compute; [discriminate|reflexivity].
Defined.

(** C9.  [Append] returns a sequence in non-decreasing order whatever the
    order of the sequence it is given, and [RemoveItem] returns a sequence
    in non-decreasing order when it is given one. *)
Theorem C9_sorted_invariant :
  (forall (l : list Z) t, Sorted Z.le (Append l t)) /\
  (forall (l : list Z) i, Sorted Z.le l -> Sorted Z.le (RemoveItem l i)).
Proof.
  split.
  - intros l t. apply sortSlice_sorted.
  - intros l i Hs.
    destruct (decide (0 <= i < len l)) as [Hi|Hi].
    + rewrite RemoveItem_valid by done. apply sortSlice_sorted.
    + rewrite RemoveItem_invalid by lia. done.
Qed.

Lemma C9_sorted_invariant_witness :
  Sorted Z.le
    (RemoveItem
       [Date 739251 8 0 0 0; Date 739251 10 0 0 0; Date 739251 12 0 0 0] 0).
Proof.
  apply (proj2 C9_sorted_invariant).
  repeat constructor; vm_compute; discriminate.
Defined.

(** ** Matching by derivatives is matching *)

Module RegexpFacts.
Import Regexp.

Lemma nullable_lang r : nullable r = true <-> lang r EmptyString.
Proof.
  induction r as [| |cls|r1 IH1 r2 IH2|r1 IH1 r2 IH2]; simpl.
  - split; [discriminate|done].
  - done.
  - split; [discriminate|]. by intros (c & Hc & _).
  - rewrite andb_true_iff, IH1, IH2. split.
    + intros [H1 H2]. by exists EmptyString, EmptyString.
    + intros (s1 & s2 & Heq & H1 & H2).
      destruct s1; [|discriminate]. destruct s2; [|discriminate]. done.
  - by rewrite orb_true_iff, IH1, IH2.
Qed.

Lemma deriv_lang c r s : lang (deriv c r) s <-> lang r (String c s).
Proof.
  revert s.
  induction r as [| |cls|r1 IH1 r2 IH2|r1 IH1 r2 IH2]; intros s; simpl.
  - done.
  - split; [done|discriminate].
  - destruct (cls c) eqn:Hc; simpl; split.
    + intros ->. by exists c.
    + intros (c' & Heq & _). by inversion Heq.
    + done.
    + intros (c' & Heq & Hc'). inversion Heq; subst. congruence.
  - assert ((exists s1 s2, s = (s1 ++ s2)%string /\ lang (deriv c r1) s1
                           /\ lang r2 s2) \/
            (nullable r1 = true /\ lang (deriv c r2) s) <->
            (exists s1 s2, String c s = (s1 ++ s2)%string /\ lang r1 s1
                           /\ lang r2 s2)) as Hcat.
    { split.
      - intros [(s1 & s2 & -> & H1 & H2)|[Hn H2]].
        + exists (String c s1), s2. by rewrite <- IH1.
        + exists EmptyString, (String c s).
          by rewrite <- nullable_lang, <- IH2.
      - intros (s1 & s2 & Heq & H1 & H2). destruct s1 as [|c' s1].
        + right. simpl in Heq. subst s2.
          by rewrite nullable_lang, IH2.
        + left. simpl in Heq. inversion Heq; subst.
          exists s1, s2. by rewrite IH1. }
    rewrite <- Hcat. destruct (nullable r1); simpl.
    + split; [intros [?|?]; [by left|by right]|intros [?|[_ ?]]; [by left|by right]].
    + split; [by left|]. by intros [?|[? _]].
  - by rewrite IH1, IH2.
Qed.

Theorem MatchString_lang r s : MatchString r s = true <-> lang r s.
Proof.
  revert r. induction s as [|c s IH]; intros r; simpl.
  - apply nullable_lang.
  - by rewrite IH, deriv_lang.
Qed.

End RegexpFacts.

(** ** Characters *)

Lemma isDigit_cases c :
  isDigit c = true ->
  c = "0"%char \/ c = "1"%char \/ c = "2"%char \/ c = "3"%char \/
  c = "4"%char \/ c = "5"%char \/ c = "6"%char \/ c = "7"%char \/
  c = "8"%char \/ c = "9"%char.
Proof.
  destruct c as [[] [] [] [] [] [] [] []]; vm_compute; intros H;
    try discriminate H; tauto.
Qed.

Lemma digit_not_colon c : isDigit c = true -> Ascii.eqb c ":" = false.
Proof. intros H. apply isDigit_cases in H. by decompose [or] H; subst. Qed.

Lemma digit_not_minus c : isDigit c = true -> Ascii.eqb c "-" = false.
Proof. intros H. apply isDigit_cases in H. by decompose [or] H; subst. Qed.

Lemma digit_not_plus c : isDigit c = true -> Ascii.eqb c "+" = false.
Proof. intros H. apply isDigit_cases in H. by decompose [or] H; subst. Qed.

Lemma digitVal_range c : isDigit c = true -> 0 <= digitVal c <= 9.
Proof.
  intros H. apply isDigit_cases in H.
  decompose [or] H; subst; vm_compute; split; discriminate.
Qed.

Lemma digitChar_isDigit d : 0 <= d <= 9 -> isDigit (digitChar d) = true.
Proof.
  intros Hd.
  assert (d = 0 \/ d = 1 \/ d = 2 \/ d = 3 \/ d = 4 \/ d = 5 \/ d = 6 \/
          d = 7 \/ d = 8 \/ d = 9) as H by lia.
  by decompose [or] H; subst.
Qed.

Lemma digitVal_digitChar d : 0 <= d <= 9 -> digitVal (digitChar d) = d.
Proof.
  intros Hd.
  assert (d = 0 \/ d = 1 \/ d = 2 \/ d = 3 \/ d = 4 \/ d = 5 \/ d = 6 \/
          d = 7 \/ d = 8 \/ d = 9) as H by lia.
  by decompose [or] H; subst.
Qed.

(** ** The accepted texts *)

Ltac use_digits :=
  repeat match goal with
         | H : isDigit ?c = true |- _ =>
             first [ rewrite H
                   | rewrite (digit_not_colon c H)
                   | rewrite (digit_not_minus c H)
                   | rewrite (digit_not_plus c H) ]
         end.

Ltac split_lang :=
  repeat match goal with
         | H : _ /\ _ |- _ => destruct H
         | H : exists _, _ |- _ => destruct H
         | H : _ \/ _ |- _ => destruct H
         | H : False |- _ => destruct H
         | H : isColon _ = true |- _ => apply Ascii.eqb_eq in H
         end; subst.

(** The expression [validTimeFormat] denotes the six forms. *)
Lemma validTimeFormat_shape s :
  Regexp.MatchString validTimeFormat s = true <-> timeShape s.
Proof.
  split.
  - intros H. apply RegexpFacts.MatchString_lang in H.
    cbv [validTimeFormat Regexp.Repeat Regexp.upTo Regexp.Quest Regexp.lang
         Nat.pred] in H.
    split_lang; simpl; by constructor.
  - destruct 1; repeat (cbn; use_digits); reflexivity.
Qed.

Ltac split_digits :=
  repeat match goal with
         | H : allDigits _ = true |- _ => simpl in H
         | H : _ && _ = true |- _ => apply andb_true_iff in H; destruct H
         | H : true = true |- _ => clear H
         end.

(** The grammar of the specification denotes the same six forms. *)
Lemma acceptedGrammar_shape s : acceptedGrammar s <-> timeShape s.
Proof.
  split.
  - intros [[Hlen Hd]|(h & m & -> & Hh & Hhd & Hm & Hmd)].
    + destruct s as [|a [|b [|c [|d [|e s]]]]]; simpl in Hlen; try lia;
        split_digits; by constructor.
    + destruct h as [|a [|b [|c h]]]; simpl in Hh; try lia;
        destruct m as [|c' [|d' [|e' m]]]; simpl in Hm; try lia;
        split_digits; simpl; by constructor.
  - destruct 1.
    + left. split; [simpl; lia|]. simpl. by use_digits.
    + left. split; [simpl; lia|]. simpl. by use_digits.
    + left. split; [simpl; lia|]. simpl. by use_digits.
    + left. split; [simpl; lia|]. simpl. by use_digits.
    + right. exists (String a EmptyString), (String b (String c EmptyString)).
      simpl. use_digits. repeat split; lia.
    + right. exists (String a (String b EmptyString)),
                    (String c (String d EmptyString)).
      simpl. use_digits. repeat split; lia.
Qed.

(** ** [ParseTime] on the six forms *)

Lemma Atoi_two_digits a b :
  isDigit a = true -> isDigit b = true ->
  Atoi (String a (String b EmptyString)) = Some (twoDigitValue a b).
Proof.
  intros Ha Hb. pose proof (digitVal_range a Ha). pose proof (digitVal_range b Hb).
  unfold Atoi, twoDigitValue. use_digits. simpl. use_digits.
  destruct (Z.ltb_spec ((0 * 10 + digitVal a) * 10 + digitVal b) (- 2 ^ 63));
    [lia|].
  destruct (Z.ltb_spec (2 ^ 63 - 1) ((0 * 10 + digitVal a) * 10 + digitVal b));
    [lia|].
  simpl. f_equal; lia.
Qed.

Lemma isDigit_0 : isDigit "0" = true.
Proof. reflexivity. Qed.

Lemma twoDigitValue_0_l a : twoDigitValue "0" a = digitVal a.
Proof. unfold twoDigitValue. by change (digitVal "0") with 0. Qed.

(** Four digits are read as HH and MM. *)
Lemma ParseTime_HHMM now a b c d :
  isDigit a = true -> isDigit b = true -> isDigit c = true ->
  isDigit d = true ->
  ParseTime now (String a (String b (String c (String d EmptyString))))
  = clockOf now (twoDigitValue a b) (twoDigitValue c d).
Proof.
  intros Ha Hb Hc Hd. unfold ParseTime.
  rewrite (proj2 (validTimeFormat_shape _)) by by constructor.
  simpl. use_digits. simpl. rewrite !Atoi_two_digits by done. done.
Qed.

Lemma ParseTime_HH_MM now a b c d :
  isDigit a = true -> isDigit b = true -> isDigit c = true ->
  isDigit d = true ->
  ParseTime now
    (String a (String b (String ":" (String c (String d EmptyString)))))
  = clockOf now (twoDigitValue a b) (twoDigitValue c d).
Proof.
  intros Ha Hb Hc Hd. unfold ParseTime.
  rewrite (proj2 (validTimeFormat_shape _)) by by constructor.
  simpl. use_digits. simpl. rewrite !Atoi_two_digits by done. done.
Qed.

Lemma ParseTime_HMM now a b c :
  isDigit a = true -> isDigit b = true -> isDigit c = true ->
  ParseTime now (String a (String b (String c EmptyString)))
  = clockOf now (digitVal a) (twoDigitValue b c).
Proof.
  intros Ha Hb Hc. unfold ParseTime.
  rewrite (proj2 (validTimeFormat_shape _)) by by constructor.
  simpl. use_digits. simpl.
  rewrite !Atoi_two_digits by (done || apply isDigit_0).
  by rewrite twoDigitValue_0_l.
Qed.

Lemma ParseTime_H_MM now a b c :
  isDigit a = true -> isDigit b = true -> isDigit c = true ->
  ParseTime now (String a (String ":" (String b (String c EmptyString))))
  = clockOf now (digitVal a) (twoDigitValue b c).
Proof.
  intros Ha Hb Hc. unfold ParseTime.
  rewrite (proj2 (validTimeFormat_shape _)) by by constructor.
  simpl. use_digits. simpl.
  rewrite !Atoi_two_digits by (done || apply isDigit_0).
  by rewrite twoDigitValue_0_l.
Qed.

Lemma ParseTime_HH now a b :
  isDigit a = true -> isDigit b = true ->
  ParseTime now (String a (String b EmptyString))
  = clockOf now (twoDigitValue a b) 0.
Proof.
  intros Ha Hb. unfold ParseTime.
  rewrite (proj2 (validTimeFormat_shape _)) by by constructor.
  simpl. use_digits. simpl.
  rewrite !Atoi_two_digits by (done || apply isDigit_0).
  done.
Qed.

Lemma ParseTime_H now a :
  isDigit a = true ->
  ParseTime now (String a EmptyString) = clockOf now (digitVal a) 0.
Proof.
  intros Ha. unfold ParseTime.
  rewrite (proj2 (validTimeFormat_shape _)) by by constructor.
  simpl. use_digits. simpl.
  rewrite !Atoi_two_digits by (done || apply isDigit_0).
  by rewrite twoDigitValue_0_l.
Qed.

(** [ParseTime] reads the fields the specification reads. *)
Lemma ParseTime_shape now s :
  timeShape s ->
  ParseTime now s = clockOf now (specFields s).1 (specFields s).2.
Proof.
  destruct 1.
  - rewrite ParseTime_H by done. unfold specFields. simpl. by use_digits.
  - rewrite ParseTime_HH by done. unfold specFields. simpl. by use_digits.
  - rewrite ParseTime_HMM by done. unfold specFields. simpl. by use_digits.
  - rewrite ParseTime_HHMM by done. unfold specFields. simpl. by use_digits.
  - rewrite ParseTime_H_MM by done. unfold specFields. simpl. by use_digits.
  - rewrite ParseTime_HH_MM by done. unfold specFields. simpl. by use_digits.
Qed.

Lemma clockOf_ok now h m :
  0 <= h <= 23 -> 0 <= m <= 59 ->
  clockOf now h m = inl (Date (dayOf now) h m 0 0).
Proof.
  intros Hh Hm. unfold clockOf.
  destruct (Z.ltb_spec h 0); [lia|]. destruct (Z.gtb_spec h 23); [lia|].
  destruct (Z.ltb_spec m 0); [lia|]. destruct (Z.gtb_spec m 59); [lia|].
  done.
Qed.

Lemma clockOf_inl now h m t :
  clockOf now h m = inl t -> 0 <= h <= 23 /\ 0 <= m <= 59.
Proof.
  unfold clockOf.
  destruct (Z.ltb_spec h 0); [done|]. destruct (Z.gtb_spec h 23); [done|].
  destruct (Z.ltb_spec m 0); [done|]. destruct (Z.gtb_spec m 59); [done|].
  lia.
Qed.

(** ** The clock fields of a date *)

Lemma hourOf_Date day h m :
  0 <= h <= 23 -> 0 <= m <= 59 -> hourOf (Date day h m 0 0) = h.
Proof.
  intros Hh Hm. unfold hourOf, Date.
  replace (day * nsPerDay + h * Hour + m * Minute + 0 * Second + 0)
    with (m * Minute + h * Hour + day * nsPerDay) by ring.
  rewrite Z_mod_plus_full.
  rewrite Z.mod_small by (unfold nsPerDay, Hour, Minute, Second; lia).
  rewrite Z.div_add by done.
  rewrite Z.div_small by (unfold Hour, Minute, Second; lia). done.
Qed.

Lemma minuteOf_Date day h m :
  0 <= m <= 59 -> minuteOf (Date day h m 0 0) = m.
Proof.
  intros Hm. unfold minuteOf, Date.
  replace (day * nsPerDay + h * Hour + m * Minute + 0 * Second + 0)
    with (m * Minute + (day * 24 + h) * Hour) by (unfold nsPerDay; ring).
  rewrite Z_mod_plus_full.
  rewrite Z.mod_small by (unfold Hour, Minute, Second; lia).
  by rewrite Z.div_mul.
Qed.



Lemma twoDigits_value x :
  0 <= x <= 99 ->
  twoDigitValue (digitChar (x / 10)) (digitChar (x mod 10)) = x.
Proof.
  intros Hx. unfold twoDigitValue.
  pose proof (Z.div_mod x 10 ltac:(lia)).
  pose proof (Z.mod_pos_bound x 10 ltac:(lia)).
  rewrite !digitVal_digitChar; lia.
Qed.

Lemma twoDigits_digits x :
  0 <= x <= 99 ->
  isDigit (digitChar (x / 10)) = true /\ isDigit (digitChar (x mod 10)) = true.
Proof.
  intros Hx.
  pose proof (Z.div_mod x 10 ltac:(lia)).
  pose proof (Z.mod_pos_bound x 10 ltac:(lia)).
  split; apply digitChar_isDigit; lia.
Qed.

(** ** The claims on [ParseTime] *)

(** C3, as the code has it.  [ParseTime] matches the text it is given, not
    a trimmed copy: " 730" is rejected although "730" is in the grammar
    with hour 7 and minute 30. *)
Lemma C3_untrimmed_text_rejected :
  ~ ((exists t, ParseTime 0 " 730" = inl t) <->
     acceptedGrammar (TrimSpace " 730") /\
     0 <= (specFields (TrimSpace " 730")).1 <= 23 /\
     0 <= (specFields (TrimSpace " 730")).2 <= 59).
Proof.
  intros [_ Hback].
  destruct Hback as [t Ht]; [|discriminate Ht].
  split; [|by vm_compute].
  left. split; [simpl; lia|reflexivity].
Qed.

(** C3.  [ParseTime] succeeds exactly when its input, as given, is in the
    accepted grammar and the hour it holds is in 0-23 and the minute in
    0-59; on every other input it returns an error, so on the empty text,
    on a text with a character that is no digit, on hour 25 and on
    minute 60. *)
Theorem C3_parse_succeeds_iff (now : Z) (s : string) :
  ((exists t, ParseTime now s = inl t) <->
   acceptedGrammar s /\
   0 <= (specFields s).1 <= 23 /\ 0 <= (specFields s).2 <= 59) /\
  (~ (acceptedGrammar s /\
      0 <= (specFields s).1 <= 23 /\ 0 <= (specFields s).2 <= 59) ->
   exists e, ParseTime now s = inr e) /\
  ParseTime now "" = inr (ErrNotSupported "") /\
  ParseTime now "14a00" = inr (ErrNotSupported "14a00") /\
  ParseTime now "25:00" = inr (ErrHoursRange 25) /\
  ParseTime now "14:60" = inr (ErrMinutesRange 60).
Proof.
  assert ((exists t, ParseTime now s = inl t) <->
          acceptedGrammar s /\
          0 <= (specFields s).1 <= 23 /\ 0 <= (specFields s).2 <= 59) as Hiff.
  { rewrite acceptedGrammar_shape. split.
    - intros [t Ht]. destruct (Regexp.MatchString validTimeFormat s) eqn:Hm.
      + apply validTimeFormat_shape in Hm. split; [done|].
        rewrite ParseTime_shape in Ht by done. by apply clockOf_inl in Ht.
      + unfold ParseTime in Ht. by rewrite Hm in Ht.
    - intros (Hs & Hh & Hm). rewrite ParseTime_shape by done.
      rewrite clockOf_ok by done. by eexists. }
  split; [done|]. split; [|done].
  intros Hnot. destruct (ParseTime now s) as [t|e] eqn:Hp; [|by eexists].
  destruct Hnot. apply Hiff. by eexists.
Qed.

Lemma C3_parse_succeeds_iff_witness : exists t, ParseTime 0 "7:30" = inl t.
Proof.
  apply (proj2 (proj1 (C3_parse_succeeds_iff 0 "7:30"))).
  split; [|by vm_compute].
  right. exists "7"%string, "30"%string.
  repeat split; (reflexivity || (simpl; lia)).
Defined.



(** C7.  [ParseTime] reads an accepted input by its number of digits, the
    colon left out: one or two digits are the hour, padded with zeros to
    two digits, and minutes 00; three digits get one "0" in front; four
    digits are HH and MM.  "7" is 07:00, "730" and "7:30" are 07:30,
    "1400" is 14:00. *)
Theorem C7_normalization_by_digit_count (now : Z) :
  (forall a, isDigit a = true ->
     ParseTime now (String a "")
     = ParseTime now (String "0" (String a "00"))) /\
  (forall a b, isDigit a = true -> isDigit b = true ->
     ParseTime now (String a (String b ""))
     = ParseTime now (String a (String b "00"))) /\
  (forall a b c, isDigit a = true -> isDigit b = true -> isDigit c = true ->
     ParseTime now (String a (String b (String c "")))
     = ParseTime now (String "0" (String a (String b (String c "")))) /\
     ParseTime now (String a (String ":" (String b (String c ""))))
     = ParseTime now (String "0" (String a (String b (String c ""))))) /\
  (forall a b c d, isDigit a = true -> isDigit b = true ->
     isDigit c = true -> isDigit d = true ->
     ParseTime now (String a (String b (String c (String d ""))))
     = clockOf now (twoDigitValue a b) (twoDigitValue c d) /\
     ParseTime now (String a (String b (String ":" (String c (String d "")))))
     = clockOf now (twoDigitValue a b) (twoDigitValue c d)) /\
  (ParseTime now "7" = inl (Date (dayOf now) 7 0 0 0) /\
   ParseTime now "730" = inl (Date (dayOf now) 7 30 0 0) /\
   ParseTime now "7:30" = inl (Date (dayOf now) 7 30 0 0) /\
   ParseTime now "1400" = inl (Date (dayOf now) 14 0 0 0)) /\
  (FormatTime (Date (dayOf now) 7 0 0 0) = "07:00"%string /\
   FormatTime (Date (dayOf now) 7 30 0 0) = "07:30"%string /\
   FormatTime (Date (dayOf now) 14 0 0 0) = "14:00"%string).
Proof.
  split; [|split; [|split; [|split; [|split]]]].
  - intros a Ha. rewrite ParseTime_H by done.
    rewrite ParseTime_HHMM by (done || apply isDigit_0).
    by rewrite (twoDigitValue_0_l a).
  - intros a b Ha Hb. rewrite ParseTime_HH by done.
    by rewrite ParseTime_HHMM by (done || apply isDigit_0).
  - intros a b c Ha Hb Hc.
    rewrite ParseTime_HMM, ParseTime_H_MM by done.
    rewrite ParseTime_HHMM by (done || apply isDigit_0).
    by rewrite (twoDigitValue_0_l a).
  - intros a b c d Ha Hb Hc Hd.
    by rewrite ParseTime_HHMM, ParseTime_HH_MM.
  - split; [by rewrite ParseTime_H|].
    split; [by rewrite ParseTime_HMM|].
    split; [by rewrite ParseTime_H_MM|by rewrite ParseTime_HHMM].
  - unfold FormatTime.
    rewrite !hourOf_Date, !minuteOf_Date by lia. done.
Qed.

Lemma C7_normalization_by_digit_count_witness :
  ParseTime 0 "7" = ParseTime 0 "0700".
Proof.
  apply (proj1 (C7_normalization_by_digit_count 0) "7"%char).
  reflexivity.
Defined.

(** * Further properties of the ledger *)

Lemma Last_snoc (l : list Z) x : Last (l ++ [x]) = x.
Proof.
  unfold Last, len. rewrite length_app. simpl.
  destruct (Z.eqb_spec (Z.of_nat (length l + 1)) 0); [lia|].
  replace (Z.to_nat (Z.of_nat (length l + 1) - 1)) with (length l) by lia.
  by rewrite list_lookup_middle.
Qed.

Lemma Append_perm (l : list Z) t : Append l t ≡ₚ l ++ [t].
Proof. apply sortSlice_perm. Qed.

Lemma Append_length (l : list Z) t : length (Append l t) = S (length l).
Proof. rewrite Append_perm, length_app. simpl. lia. Qed.

(** X1.  [Append] loses and invents nothing: its result is an arrangement
    of the sequence and the new time, duplicates included, one element
    longer. *)
Theorem X1_Append_keeps_entries (l : list Z) (t : Z) :
  Append l t ≡ₚ l ++ [t] /\ length (Append l t) = S (length l).
Proof.
  split; [apply Append_perm|apply Append_length].
Qed.

(** X2.  The order in which two times are appended does not matter. *)
Theorem X2_Append_commutes (l : list Z) (a b : Z) :
  Append (Append l a) b = Append (Append l b) a.
Proof.
  unfold Append, sortTimesAscending.
  apply sortSlice_unique; [apply sortSlice_sorted|].
  repeat rewrite sortSlice_perm.
  rewrite <- !app_assoc. simpl. apply Permutation_app_head, perm_swap.
Qed.

(** X3.  On a ledger in order, removing an appended time at the place it
    took gives the ledger back. *)
Theorem X3_Append_then_RemoveItem (l : list Z) (t : Z) :
  Sorted Z.le l ->
  exists i, 0 <= i < len (Append l t) /\
    Append l t !! Z.to_nat i = Some t /\
    RemoveItem (Append l t) i = l.
Proof.
  intros Hs.
  assert (t ∈ Append l t) as Hin.
  { rewrite Append_perm, elem_of_app, list_elem_of_singleton. by right. }
  apply list_elem_of_lookup in Hin as [i Hi].
  pose proof (lookup_lt_Some _ _ _ Hi) as Hlt.
  exists (Z.of_nat i). rewrite Nat2Z.id. unfold len.
  split; [lia|]. split; [done|].
  rewrite RemoveItem_valid by (unfold len; lia). rewrite Nat2Z.id.
  unfold sortTimesAscending. symmetry. apply sortSlice_unique; [done|].
  apply (Permutation_cons_inv (a := t)).
  rewrite <- (delete_Permutation _ _ _ Hi).
  rewrite Append_perm.
  by rewrite Permutation_app_comm.
Qed.

Lemma X3_Append_then_RemoveItem_witness :
  exists i, 0 <= i < len (Append [Date 5 8 0 0 0; Date 5 12 0 0 0] (Date 5 9 0 0 0)) /\
    Append [Date 5 8 0 0 0; Date 5 12 0 0 0] (Date 5 9 0 0 0) !! Z.to_nat i
    = Some (Date 5 9 0 0 0) /\
    RemoveItem (Append [Date 5 8 0 0 0; Date 5 12 0 0 0] (Date 5 9 0 0 0)) i
    = [Date 5 8 0 0 0; Date 5 12 0 0 0].
Proof.
  apply (X3_Append_then_RemoveItem [Date 5 8 0 0 0; Date 5 12 0 0 0]).
  repeat constructor; vm_compute; discriminate.
Defined.

(** X4.  After [Append], [Last] is the latest of all entries, the new one
    included, and it is one of them. *)
Theorem X4_Last_after_Append (l : list Z) (t : Z) :
  Forall (fun x => x <= Last (Append l t)) (l ++ [t]) /\
  Last (Append l t) ∈ l ++ [t].
Proof.
  pose proof (Append_perm l t) as Hperm.
  pose proof (Append_length l t) as Hlen.
  destruct (sorted_split_last (Append l t)) as (prefix & x & Heq & Hmax).
  { intros Hnil. by rewrite Hnil in Hlen. }
  { apply sortSlice_sorted. }
  rewrite Heq, Last_snoc. rewrite Heq in Hmax, Hperm. split.
  - by rewrite <- Hperm.
  - rewrite <- Hperm, elem_of_app, list_elem_of_singleton. by right.
Qed.

(** X5.  The total depends on the entries, not on their order in the
    sequence. *)
Theorem X5_Sum_order_irrelevant (l l' : list Z) (now : Z) :
  l ≡ₚ l' ->
  SumPairedDurationsWithNow l now = SumPairedDurationsWithNow l' now.
Proof.
  intros Hperm. rewrite !SumPairedDurationsWithNow_eq.
  unfold len. rewrite (Permutation_length Hperm). f_equal.
  apply sortSlice_unique; [apply sortSlice_sorted|].
  rewrite sortSlice_perm. by destruct (_ && _); rewrite Hperm.
Qed.

Lemma X5_Sum_order_irrelevant_witness :
  SumPairedDurationsWithNow [Date 5 15 0 0 0; Date 5 10 0 0 0; Date 5 7 0 0 0]
    (Date 5 16 0 0 0)
  = SumPairedDurationsWithNow [Date 5 7 0 0 0; Date 5 10 0 0 0; Date 5 15 0 0 0]
    (Date 5 16 0 0 0).
Proof.
  apply X5_Sum_order_irrelevant.
  change ([Date 5 15 0 0 0; Date 5 10 0 0 0; Date 5 7 0 0 0])
    with (reverse [Date 5 7 0 0 0; Date 5 10 0 0 0; Date 5 15 0 0 0]).
  apply reverse_Permutation.
Defined.

Lemma pairedSpan_app_even (l1 l2 : list Z) :
  Nat.Even (length l1) -> pairedSpan (l1 ++ l2) = pairedSpan l1 + pairedSpan l2.
Proof.
  induction l1 as [l1 IH] using (induction_ltof1 _ (@length Z)).
  unfold ltof in *. intros Hev.
  destruct l1 as [|s [|e rest]]; simpl; [done| |].
  - destruct Hev as [k Hk]. simpl in Hk. lia.
  - rewrite IH; [lia|simpl; lia|].
    destruct Hev as [k Hk]. simpl in Hk. exists (k - 1)%nat. lia.
Qed.

Lemma sortSlice_snoc_latest (l : list Z) now :
  Forall (fun t => t <= now) l ->
  sortSlice Before (l ++ [now]) = sortSlice Before l ++ [now].
Proof.
  intros Hmax. symmetry. apply sortSlice_unique.
  - apply StronglySorted_Sorted, StronglySorted_app_2.
    + intros x1 x2 Hx1 Hx2. apply list_elem_of_singleton in Hx2 as ->.
      rewrite sortSlice_perm in Hx1.
      rewrite List.Forall_forall in Hmax. by apply Hmax, list_elem_of_In.
    + apply (Sorted_StronglySorted Z.le), sortSlice_sorted.
    + repeat constructor.
  - by rewrite sortSlice_perm.
Qed.

(** Within a window [lo .. hi] that a Duration can measure, the function
    returns the plain sum of the spans, which the window bounds. *)
Lemma Sum_in_window (l : list Z) now lo hi :
  lo <= hi -> hi - lo <= maxDuration ->
  Forall (fun t => lo <= t <= hi) l ->
  (Nat.Odd (length l) -> now <> zeroTime -> lo <= now <= hi) ->
  SumPairedDurationsWithNow l now =
  pairedSpan (sortSlice Before
    (if (len l mod 2 =? 1) && negb (IsZero now) then l ++ [now] else l)) /\
  0 <= SumPairedDurationsWithNow l now <= hi - lo.
Proof.
  intros Hlo Hwin Hall Hnow. rewrite SumPairedDurationsWithNow_eq.
  match goal with |- context [sortSlice Before ?l] => set (tlist := l) end.
  assert (Forall (fun t => lo <= t <= hi) tlist) as Hin.
  { subst tlist. destruct (len l mod 2 =? 1) eqn:Hpar; [|done].
    destruct (IsZero now) eqn:Hz; [done|]. simpl.
    apply Forall_app. split; [done|]. constructor; [|done].
    apply Hnow; [by apply len_parity_odd|].
    unfold IsZero, zeroTime in *. by apply Z.eqb_neq. }
  assert (Forall (fun t => lo <= t <= hi) (sortSlice Before tlist)) as Hin'.
  { by rewrite sortSlice_perm. }
  pose proof (Sorted_StronglySorted Z.le _ (sortSlice_sorted tlist)) as Hs.
  rewrite (pairedSum_exact _ lo hi) by done.
  pose proof (pairedSpan_bounds _ lo hi Hlo Hs Hin'). done.
Qed.

(** With a clock reading not before any entry, an open interval runs from
    the latest entry to the reading. *)
Lemma provisional_formula (l : list Z) now lo :
  Nat.Odd (length l) -> now <> zeroTime ->
  Forall (fun t => lo <= t <= now) l -> now - lo <= maxDuration ->
  SumPairedDurationsWithNow l now
  = SumPairedDurationsWithNow l zeroTime + (now - Last (sortTimesAscending l)).
Proof.
  intros Hodd Hnow Hall Hwin. unfold sortTimesAscending.
  assert (lo <= now) as Hlo.
  { destruct l as [|t l]; [destruct Hodd as [k Hk]; simpl in Hk; lia|].
    inversion Hall; subst. lia. }
  destruct (Sum_in_window l now lo now Hlo Hwin Hall) as [-> _]; [lia|].
  destruct (Sum_in_window l zeroTime lo now Hlo Hwin Hall) as [-> _]; [done|].
  replace (IsZero zeroTime) with true by done. rewrite andb_false_r.
  apply len_parity_odd in Hodd as Hpar. rewrite Hpar.
  replace (IsZero now) with false
    by (symmetry; unfold IsZero, zeroTime in *; by apply Z.eqb_neq).
  simpl. rewrite sortSlice_snoc_latest.
  2: { eapply List.Forall_impl; [|exact Hall]. simpl. intros; lia. }
  destruct (sorted_split_last (sortSlice Before l))
    as (prefix & x & Heq & _).
  { intros Hnil. apply (f_equal length) in Hnil.
    rewrite sortSlice_length in Hnil. destruct Hodd as [k Hk].
    simpl in Hnil. lia. }
  { apply sortSlice_sorted. }
  assert (Nat.Even (length prefix)) as Hev.
  { apply (f_equal length) in Heq.
    rewrite sortSlice_length, length_app in Heq. simpl in Heq.
    destruct Hodd as [k Hk]. exists k. lia. }
  rewrite Heq, Last_snoc, <- app_assoc.
  rewrite pairedSpan_app_even, (pairedSpan_snoc_even prefix x) by done.
  simpl. lia.
Qed.

(** X6.  For a ledger with an open interval (odd length) and a clock
    reading that is not the zero time and not before any entry, the
    provisional total is the total plus the time from the latest entry to
    the reading. *)
Theorem X6_provisional_is_total_plus_open_interval (l : list Z) (now lo : Z) :
  Nat.Odd (length l) -> now <> zeroTime ->
  Forall (fun t => lo <= t <= now) l -> now - lo <= maxDuration ->
  SumPairedDurationsWithNow l now
  = SumPairedDurationsWithNow l zeroTime + (now - Last (sortTimesAscending l)).
Proof. apply provisional_formula. Qed.

Lemma X6_provisional_is_total_plus_open_interval_witness :
  SumPairedDurationsWithNow
    [Date 5 8 0 0 0; Date 5 12 0 0 0; Date 5 13 0 0 0] (Date 5 17 0 0 0)
  = SumPairedDurationsWithNow
      [Date 5 8 0 0 0; Date 5 12 0 0 0; Date 5 13 0 0 0] zeroTime
    + (Date 5 17 0 0 0
       - Last (sortTimesAscending
                 [Date 5 8 0 0 0; Date 5 12 0 0 0; Date 5 13 0 0 0])).
Proof.
  apply (X6_provisional_is_total_plus_open_interval _ _ (Date 5 0 0 0 0)).
  - exists 1%nat. reflexivity.
  - vm_compute. discriminate.
  - repeat constructor; vm_compute; discriminate.
  - vm_compute. discriminate.
Defined.

(** X7.  When the timestamps that take part lie between [lo] and [hi], not
    further apart than a Duration can measure, the total is at least zero
    and at most [hi - lo]. *)
Theorem X7_total_bounded_by_span (l : list Z) (now lo hi : Z) :
  lo <= hi -> hi - lo <= maxDuration ->
  Forall (fun t => lo <= t <= hi) l ->
  (Nat.Odd (length l) -> now <> zeroTime -> lo <= now <= hi) ->
  0 <= SumPairedDurationsWithNow l now <= hi - lo.
Proof.
  intros Hlo Hwin Hall Hnow.
  by destruct (Sum_in_window l now lo hi Hlo Hwin Hall Hnow) as [_ ?].
Qed.

Lemma X7_total_bounded_by_span_witness :
  0 <= SumPairedDurationsWithNow
         [Date 5 8 0 0 0; Date 5 12 0 0 0; Date 5 13 0 0 0] (Date 5 17 0 0 0)
    <= Date 5 17 0 0 0 - Date 5 8 0 0 0.
Proof.
  apply X7_total_bounded_by_span.
  - vm_compute. discriminate.
  - vm_compute. discriminate.
  - repeat constructor; vm_compute; discriminate.
  - intros _ _. split; vm_compute; discriminate.
Defined.

Lemma Sub_shift t u c : Sub (t + c) (u + c) = Sub t u.
Proof. unfold Sub. by replace (t + c - (u + c)) with (t - u) by ring. Qed.

Lemma pairedSum_shift (l : list Z) c :
  pairedSum ((fun t => t + c) <$> l) = pairedSum l.
Proof.
  induction l as [l IH] using (induction_ltof1 _ (@length Z)).
  unfold ltof in *. destruct l as [|s [|e rest]]; simpl; [done..|].
  rewrite Sub_shift. f_equal. apply IH. simpl. lia.
Qed.

Lemma sortSlice_shift (l : list Z) c :
  sortSlice Before ((fun t => t + c) <$> l)
  = (fun t => t + c) <$> sortSlice Before l.
Proof.
  symmetry. apply sortSlice_unique.
  - pose proof (sortSlice_sorted l) as Hs.
    induction Hs as [|x k Hk IH Hhd]; simpl; [constructor|].
    constructor; [done|]. destruct Hhd; simpl; constructor. lia.
  - by rewrite sortSlice_perm.
Qed.

(** X8.  Moving every timestamp and the clock reading by the same amount
    leaves the total as it is, as long as the reading is the zero time
    neither before nor after the move. *)
Theorem X8_total_unchanged_by_shift (l : list Z) (now c : Z) :
  now <> zeroTime -> now + c <> zeroTime ->
  SumPairedDurationsWithNow ((fun t => t + c) <$> l) (now + c)
  = SumPairedDurationsWithNow l now.
Proof.
  intros Hnow Hnow'. rewrite !SumPairedDurationsWithNow_eq.
  unfold len. rewrite length_fmap.
  replace (IsZero (now + c)) with false
    by (symmetry; unfold IsZero, zeroTime in *; by apply Z.eqb_neq).
  replace (IsZero now) with false
    by (symmetry; unfold IsZero, zeroTime in *; by apply Z.eqb_neq).
  destruct (_ && _).
  - replace (((fun t => t + c) <$> l) ++ [now + c])
      with ((fun t => t + c) <$> (l ++ [now])) by by rewrite fmap_app.
    by rewrite sortSlice_shift, pairedSum_shift.
  - by rewrite sortSlice_shift, pairedSum_shift.
Qed.

Lemma X8_total_unchanged_by_shift_witness :
  SumPairedDurationsWithNow
    ((fun t => t + nsPerDay) <$> [Date 5 8 0 0 0]) (Date 5 9 0 0 0 + nsPerDay)
  = SumPairedDurationsWithNow [Date 5 8 0 0 0] (Date 5 9 0 0 0).
Proof.
  apply X8_total_unchanged_by_shift; vm_compute; discriminate.
Defined.

(** * The program *)

(** X9.  The planned exit is the time at which the target is reached: for
    a ledger in order with an open interval, a total not above the
    target and all times in one window, the provisional total at the
    planned exit, latest entry plus what remains, is the target; and the
    planned text is that instant formatted. *)
Theorem X9_planned_exit_reaches_target (m : model) (now lo : Z) :
  let m' := RecalculateDurations now m in
  let exit := Last (durations m) + sub64 (target m) (total m') in
  Sorted Z.le (durations m) -> Nat.Odd (length (durations m)) ->
  Forall (fun t => lo <= t <= lo + maxDuration) (durations m) ->
  total m' <= target m <= maxDuration ->
  exit <= lo + maxDuration -> exit <> zeroTime ->
  Last (durations m) <> zeroTime ->
  SumPairedDurationsWithNow (durations m) exit = target m /\
  planned m' = FormatTime exit.
Proof.
  intros m' exit Hs Hodd Hall Htarget Hexit Hnz Hlast.
  assert (0 <= total m') as Htot.
  { by destruct (Sum_in_window (durations m) zeroTime lo (lo + maxDuration))
      as [_ [? _]]; [unfold maxDuration; lia|lia|done|done|]. }
  assert (sub64 (target m) (total m') = target m - total m') as Hrem.
  { apply wrap64_id. unfold inInt64, minDuration, maxDuration in *. lia. }
  split.
  - destruct (sorted_split_last (durations m)) as (prefix & x & Heq & Hmax);
      [|done|].
    { intros Hnil. rewrite Hnil in Hodd. destruct Hodd as [k Hk].
      simpl in Hk. lia. }
    assert (Last (durations m) = x) as Hx by (by rewrite Heq, Last_snoc).
    rewrite (provisional_formula _ _ lo); [| done | done | | ].
    + unfold sortTimesAscending. rewrite sortSlice_id by done.
      subst exit. rewrite Hrem. subst m'. simpl. lia.
    + rewrite List.Forall_forall in Hall, Hmax.
      apply List.Forall_forall. intros t Ht.
      specialize (Hall t Ht). specialize (Hmax t Ht).
      subst exit. rewrite Hrem, Hx. subst m'. simpl in *. lia.
    + lia.
  - subst m'. simpl.
    replace (IsZero (Last (durations m))) with false; [done|].
    symmetry. unfold IsZero, zeroTime in *. by apply Z.eqb_neq.
Qed.

Lemma X9_planned_exit_reaches_target_witness :
  SumPairedDurationsWithNow [Date 5 8 0 0 0; Date 5 12 0 0 0; Date 5 13 0 0 0]
    (Date 5 17 0 0 0) = 8 * Hour.
Proof.
  pose (m := {| durations := [Date 5 8 0 0 0; Date 5 12 0 0 0; Date 5 13 0 0 0];
                total := 0; totalProvisionnal := 0; overtime := 0;
                planned := EmptyString; quitting := false; target := 8 * Hour;
                startupTime := zeroTime |}).
  refine (proj1 (X9_planned_exit_reaches_target m (Date 5 14 0 0 0)
                   (Date 5 0 0 0 0) _ _ _ _ _ _ _)).
  - repeat constructor; vm_compute; discriminate.
  - exists 1%nat. reflexivity.
  - repeat constructor; vm_compute; discriminate.
  - split; vm_compute; discriminate.
  - vm_compute. discriminate.
  - vm_compute. discriminate.
  - vm_compute. discriminate.
Defined.


Lemma RecalculateDurations_invariant now m target0 :
  Sorted Z.le (durations m) -> target m = target0 ->
  ledgerInvariant target0 (RecalculateDurations now m).
Proof. intros Hs Ht. by repeat split. Qed.

Lemma RemoveItem_sorted (l : list Z) i :
  Sorted Z.le l -> Sorted Z.le (RemoveItem l i).
Proof.
  intros Hs. destruct (decide (0 <= i < len l)) as [Hi|Hi].
  - rewrite RemoveItem_valid by done. apply sortSlice_sorted.
  - rewrite RemoveItem_invalid by lia. done.
Qed.

Lemma Update_invariant r message m target0 :
  ledgerInvariant target0 m -> ledgerInvariant target0 (Update r message m).
Proof.
  intros (Hs & Htot & Ht). destruct message as [|up|keypress|]; simpl.
  - by repeat split.
  - destruct (len (durations m) =? 0).
    + apply RecalculateDurations_invariant; [apply sortSlice_sorted|done].
    + by repeat split.
  - destruct (_ || _)%bool; [by repeat split|].
    destruct (String.eqb keypress "enter").
    { destruct (ParseTime _ _); [|by repeat split].
      apply RecalculateDurations_invariant; [apply sortSlice_sorted|done]. }
    destruct (String.eqb keypress "x"); [|by repeat split].
    apply RecalculateDurations_invariant; [by apply RemoveItem_sorted|done].
  - by repeat split.
Qed.

(** X10.  Whatever messages arrive, with whatever clock readings, input
    texts and list positions, the ledger of the model stays in
    non-decreasing order, its total is the total of the ledger without a
    clock reading, and its target is the one it started with. *)
Theorem X10_ledger_invariant (events : list (readings * msg)) (target0 : Z) :
  ledgerInvariant target0 (run events (initialModel target0)).
Proof.
  assert (forall m, ledgerInvariant target0 m ->
                    ledgerInvariant target0 (run events m)) as Hrun.
  { induction events as [|[r message] events IH]; intros m Hm; simpl; [done|].
    by apply IH, Update_invariant. }
  apply Hrun. repeat split. constructor.
Qed.




(** * Formatting and parsing *)

Lemma rangeFormat_fills (rest : list Z) (filled : list string) :
  rangeFormat (length filled) rest
    (filled ++ replicate (length rest) EmptyString)
  = filled ++ (FormatTime <$> rest).
Proof.
  revert filled. induction rest as [|d rest IH]; intros filled; simpl; [done|].
  rewrite insert_app_r_alt by lia. rewrite Nat.sub_diag. simpl.
  replace (S (length filled)) with (length (filled ++ [FormatTime d]))
    by (rewrite length_app; simpl; lia).
  replace (filled ++ FormatTime d :: replicate (length rest) EmptyString)
    with ((filled ++ [FormatTime d]) ++ replicate (length rest) EmptyString)
    by (by rewrite <- app_assoc).
  rewrite IH. by rewrite <- app_assoc.
Qed.

(** X12.  [StringSlice] fills every slot it allocates: its result is the
    formatted entries, one for each entry, in the order of the ledger. *)
Theorem X12_StringSlice_formats_each_entry (l : list Z) :
  StringSlice l = FormatTime <$> l /\
  length (StringSlice l) = length l.
Proof.
  assert (StringSlice l = FormatTime <$> l) as Heq.
  { unfold StringSlice. apply (rangeFormat_fills l []). }
  split; [done|]. by rewrite Heq, length_fmap.
Qed.

Lemma hourOf_range t : 0 <= hourOf t <= 23.
Proof.
  unfold hourOf. pose proof (Z.mod_pos_bound t nsPerDay eq_refl) as Hb.
  split; [apply Z.div_pos; [lia|done]|].
  assert (t mod nsPerDay / Hour < 24); [|lia].
  apply Z.div_lt_upper_bound; [done|]. unfold nsPerDay in *. lia.
Qed.

Lemma minuteOf_range t : 0 <= minuteOf t <= 59.
Proof.
  unfold minuteOf. pose proof (Z.mod_pos_bound t Hour eq_refl) as Hb.
  split; [apply Z.div_pos; [lia|done]|].
  assert (t mod Hour / Minute < 60); [|lia].
  apply Z.div_lt_upper_bound; [done|]. unfold Hour in *. lia.
Qed.


Lemma ParseTime_canonical now h m :
  0 <= h <= 23 -> 0 <= m <= 59 ->
  ParseTime now (canonical h m) = inl (Date (dayOf now) h m 0 0).
Proof.
  intros Hh Hm.
  destruct (twoDigits_digits h) as [Hh1 Hh2]; [lia|].
  destruct (twoDigits_digits m) as [Hm1 Hm2]; [lia|].
  unfold canonical, twoDigits. simpl.
  rewrite ParseTime_HH_MM by done.
  rewrite !twoDigits_value by lia. by apply clockOf_ok.
Qed.

(** X13.  Every text that [FormatTime] writes is accepted by [ParseTime],
    which reads the same hour and minute back, on today's date; so is
    every text of [StringSlice]. *)
Theorem X13_formatted_time_parses_back (now : Z) :
  (forall t,
     ParseTime now (FormatTime t)
     = inl (Date (dayOf now) (hourOf t) (minuteOf t) 0 0)) /\
  (forall l : list Z,
     Forall2 (fun t s =>
                ParseTime now s
                = inl (Date (dayOf now) (hourOf t) (minuteOf t) 0 0))
       l (StringSlice l)).
Proof.
  assert (forall t, ParseTime now (FormatTime t)
                    = inl (Date (dayOf now) (hourOf t) (minuteOf t) 0 0)) as H.
  { intros t.
    change (FormatTime t) with (canonical (hourOf t) (minuteOf t)).
    apply (ParseTime_canonical now (hourOf t) (minuteOf t));
      [apply hourOf_range|apply minuteOf_range]. }
  split; [done|]. intros l.
  replace (StringSlice l) with (FormatTime <$> l)
    by (symmetry; apply (rangeFormat_fills l [])).
  apply Forall2_fmap_r, Forall_Forall2_diag, List.Forall_forall.
  intros t _. apply H.
Qed.

Lemma specFields_nonneg s :
  timeShape s -> 0 <= (specFields s).1 /\ 0 <= (specFields s).2.
Proof.
  destruct 1; unfold specFields; simpl; use_digits; simpl;
    repeat match goal with
           | H : isDigit ?c = true |- _ =>
               apply digitVal_range in H
           end; lia.
Qed.



(** X15.  The errors of [ParseTime]: outside the grammar the input is not
    supported; inside it, an hour above 23 is reported before a minute
    above 59.  The errors for the length and for the conversions of the
    hour and the minute never come out. *)
Theorem X15_parse_errors (now : Z) (s : string) (e : error) :
  ParseTime now s = inr e ->
  (~ acceptedGrammar s /\ e = ErrNotSupported s) \/
  (acceptedGrammar s /\ 23 < (specFields s).1 /\
   e = ErrHoursRange (specFields s).1) \/
  (acceptedGrammar s /\ 0 <= (specFields s).1 <= 23 /\
   59 < (specFields s).2 /\ e = ErrMinutesRange (specFields s).2).
Proof.
  intros Hp. rewrite acceptedGrammar_shape.
  destruct (Regexp.MatchString validTimeFormat s) eqn:Hm.
  - apply validTimeFormat_shape in Hm. right.
    destruct (specFields_nonneg s Hm) as [Hh0 Hm0].
    rewrite ParseTime_shape in Hp by done. unfold clockOf in Hp.
    destruct (Z.ltb_spec (specFields s).1 0); [lia|].
    destruct (Z.gtb_spec (specFields s).1 23); simpl in Hp.
    { left. inversion Hp. repeat split; [done|lia]. }
    destruct (Z.ltb_spec (specFields s).2 0); [lia|].
    destruct (Z.gtb_spec (specFields s).2 59); simpl in Hp; [|done].
    right. inversion Hp. repeat split; [done|lia..].
  - left. split.
    + intros Hs. apply validTimeFormat_shape in Hs. congruence.
    + unfold ParseTime in Hp. rewrite Hm in Hp. by inversion Hp.
Qed.

Lemma X15_parse_errors_witness :
  (~ acceptedGrammar "25:61" /\ ErrHoursRange 25 = ErrNotSupported "25:61") \/
  (acceptedGrammar "25:61" /\ 23 < (specFields "25:61").1 /\
   ErrHoursRange 25 = ErrHoursRange (specFields "25:61").1) \/
  (acceptedGrammar "25:61" /\ 0 <= (specFields "25:61").1 <= 23 /\
   59 < (specFields "25:61").2 /\
   ErrHoursRange 25 = ErrMinutesRange (specFields "25:61").2).
Proof.
  apply (X15_parse_errors 0 "25:61" (ErrHoursRange 25)). reflexivity.
Defined.

(** * [FormatDuration] *)

Lemma FormatDuration_nonneg fuel d :
  0 <= d -> FormatDuration (S fuel) d = Some (hoursMinutes d).
Proof.
  intros Hd. simpl. destruct (Z.ltb_spec d 0); [lia|].
  unfold hoursMinutes.
  rewrite (Z.quot_div_nonneg d Hour), (Z.rem_mod_nonneg d Hour) by done.
  rewrite Z.quot_div_nonneg; [done| |done].
  by apply Z.mod_pos_bound.
Qed.

Lemma neg64_minDuration : neg64 minDuration = minDuration.
Proof. reflexivity. Qed.

(** X16.  [FormatDuration] returns for every duration except the least
    one, whose negation is itself: there the recursion never ends.  A
    negative duration is printed as "-" and the text of its absolute
    value. *)
Theorem X16_FormatDuration_returns :
  (forall fuel, FormatDuration fuel minDuration = None) /\
  (forall d fuel,
     inInt64 d -> d <> minDuration ->
     FormatDuration (S (S fuel)) d
     = Some (if d <? 0 then String "-" (hoursMinutes (- d))
             else hoursMinutes d)).
Proof.
  split.
  - induction fuel as [|fuel IH]; simpl; [done|].
    change (minDuration <? 0) with true. cbv iota.
    by rewrite neg64_minDuration, IH.
  - intros d fuel Hd Hmin. destruct (d <? 0) eqn:Hneg.
    + apply Z.ltb_lt in Hneg.
      change (FormatDuration (S (S fuel)) d)
        with (if d <? 0
              then match FormatDuration (S fuel) (neg64 d) with
                   | Some s => Some (String "-" s)
                   | None => None
                   end
              else Some (sprintf02d (Z.quot d Hour) ++ ":" ++
                         sprintf02d (Z.quot (Z.rem d Hour) Minute))%string).
      destruct (Z.ltb_spec d 0); [|lia].
      assert (neg64 d = - d) as ->.
      { apply wrap64_id. unfold inInt64, minDuration, maxDuration in *. lia. }
      by rewrite FormatDuration_nonneg by lia.
    + apply Z.ltb_ge in Hneg. by apply FormatDuration_nonneg.
Qed.

Lemma X16_FormatDuration_returns_witness :
  FormatDuration 2 (- (90 * Minute)) = Some "-01:30"%string.
Proof.
  refine (proj2 X16_FormatDuration_returns (- (90 * Minute)) 0%nat _ _).
  - split; vm_compute; discriminate.
  - vm_compute. discriminate.
Defined.

Lemma sprintf02d_twoDigits x : 0 <= x <= 99 -> sprintf02d x = twoDigits x.
Proof.
  intros Hx.
  assert (forallb (fun n => String.eqb (sprintf02d (Z.of_nat n))
                              (twoDigits (Z.of_nat n)))
            (seq 0 100) = true) as Hall by (by vm_compute).
  rewrite forallb_forall in Hall.
  specialize (Hall (Z.to_nat x)). rewrite Z2Nat.id in Hall by lia.
  apply String.eqb_eq, Hall, in_seq. lia.
Qed.

Lemma FormatDuration_canonical (fuel : nat) (h m rest : Z) :
  0 <= h <= 99 -> 0 <= m <= 59 -> 0 <= rest < Minute ->
  FormatDuration (S fuel) (h * Hour + m * Minute + rest)
  = Some (canonical h m).
Proof.
  intros Hh Hm Hrest.
  rewrite FormatDuration_nonneg
    by (unfold Hour, Minute, Second in *; lia).
  unfold hoursMinutes, canonical. f_equal.
  assert ((h * Hour + m * Minute + rest) / Hour = h) as ->.
  { replace (h * Hour + m * Minute + rest)
      with (m * Minute + rest + h * Hour) by ring.
    rewrite Z.div_add by done.
    rewrite Z.div_small by (unfold Hour, Minute, Second in *; lia). done. }
  assert ((h * Hour + m * Minute + rest) mod Hour / Minute = m) as ->.
  { replace (h * Hour + m * Minute + rest)
      with (m * Minute + rest + h * Hour) by ring.
    rewrite Z_mod_plus_full.
    rewrite Z.mod_small by (unfold Hour, Minute, Second in *; lia).
    replace (m * Minute + rest) with (rest + m * Minute) by ring.
    rewrite Z.div_add by done.
    rewrite Z.div_small by lia. done. }
  by rewrite !sprintf02d_twoDigits by lia.
Qed.

(** X17.  For a duration of [h] hours (at most 99), [m] minutes (at most
    59) and less than a minute more, [FormatDuration] writes "HH:MM" with
    two digits each: what is less than a minute is dropped, not rounded. *)
Theorem X17_FormatDuration_hours_minutes (fuel : nat) (h m rest : Z) :
  0 <= h <= 99 -> 0 <= m <= 59 -> 0 <= rest < Minute ->
  FormatDuration (S fuel) (h * Hour + m * Minute + rest)
  = Some (canonical h m).
Proof. apply FormatDuration_canonical. Qed.

Lemma X17_FormatDuration_hours_minutes_witness :
  FormatDuration 1 (8 * Hour + 29 * Minute + 59 * Second)
  = Some "08:29"%string.
Proof.
  apply (X17_FormatDuration_hours_minutes 0 8 29 (59 * Second));
    vm_compute; split; discriminate || reflexivity.
Defined.



(** * Package platform *)


Lemma substring_skip_prefix (pre x : string) m :
  substring (String.length pre) m (pre ++ x) = substring 0 m x.
Proof. induction pre as [|c pre IH]; simpl; [done|apply IH]. Qed.

Lemma substring_all (x : string) : substring 0 (String.length x) x = x.
Proof. induction x as [|c x IH]; simpl; [done|by rewrite IH]. Qed.

Lemma length_append (a b : string) :
  String.length (a ++ b) = (String.length a + String.length b)%nat.
Proof. induction a as [|c a IH]; simpl; [done|by rewrite IH]. Qed.


Lemma startupClock_long text now :
  (5 <= String.length text)%nat ->
  startupClock text now
  = Returns (Date (dayOf now) (atoiOrZero (substring 0 2 text))
               (atoiOrZero (substring 3 2 text)) 0 0, None).
Proof.
  intros Hlen. unfold startupClock, sliceString.
  destruct (Nat.leb_spec 2 (String.length text)); [|lia].
  destruct (Nat.leb_spec 5 (String.length text)); [|lia]. done.
Qed.



Lemma atoiOrZero_twoDigits x :
  0 <= x <= 99 ->
  atoiOrZero (String (digitChar (x / 10))
                (String (digitChar (x mod 10)) EmptyString)) = x.
Proof.
  intros Hx. destruct (twoDigits_digits x Hx) as [H1 H2].
  unfold atoiOrZero. rewrite Atoi_two_digits by done. simpl.
  by apply twoDigits_value.
Qed.

(** X20.  When the trimmed output of [who -b] has 24 bytes before a clock
    time "HH:MM", [Startup] on Linux returns today's date at that hour
    and minute: the date in the output is not used. *)
Theorem X20_Startup_linux_reads_clock
    (now : Z) (output pre rest : string) (h m : Z) :
  TrimSpace output = (pre ++ canonical h m ++ rest)%string ->
  String.length pre = 24%nat ->
  0 <= h <= 23 -> 0 <= m <= 59 ->
  Startup_linux (inl output) now = Returns (Date (dayOf now) h m 0 0, None).
Proof.
  intros Htrim Hpre Hh Hm. unfold Startup_linux, sliceString.
  rewrite Htrim, Nat.leb_refl, andb_true_r.
  rewrite length_append, Hpre.
  destruct (Nat.leb_spec 24 (24 + String.length (canonical h m ++ rest)));
    [|lia].
  replace (24 + String.length (canonical h m ++ rest) - 24)%nat
    with (String.length (canonical h m ++ rest)) by lia.
  rewrite <- Hpre, substring_skip_prefix, substring_all.
  rewrite startupClock_long by (simpl; lia).
  unfold canonical, twoDigits. simpl.
  replace (substring 0 0 rest) with EmptyString by (by destruct rest).
  rewrite !atoiOrZero_twoDigits by lia. done.
Qed.

Lemma X20_Startup_linux_reads_clock_witness :
  Startup_linux (inl "         system boot  2025-01-01 08:15"%string)
    (Date 739251 13 0 0 0)
  = Returns (Date (dayOf (Date 739251 13 0 0 0)) 8 15 0 0, None).
Proof.
  apply (X20_Startup_linux_reads_clock _ _ "system boot  2025-01-01 "%string
           EmptyString 8 15); (reflexivity || lia).
Defined.

(** X21.  [Startup] on Windows never returns an error: when the command
    fails it panics on the empty text, and what it returns has a nil
    error. *)
Theorem X21_Startup_windows_never_errors (now : Z) :
  (forall err, Startup_windows (inr err) now = Panics) /\
  (forall cmd t e, Startup_windows cmd now = Returns (t, e) -> e = None).
Proof.
  split; [done|].
  intros cmd t e. unfold Startup_windows, startupClock.
  destruct (sliceString _ 0 2); [|done].
  destruct (sliceString _ 3 5); [|done].
  intros H. by inversion H.
Qed.

Lemma X21_Startup_windows_never_errors_witness :
  @None execError = None.
Proof.
  apply (proj2 (X21_Startup_windows_never_errors 0) (inl "08:15"%string)
           (Date 0 8 15 0 0) None).
  reflexivity.
Defined.

Lemma digit_not_in_crlf c :
  isDigit c = true ->
  inCutset c (String "013" (String "010" EmptyString)) = false.
Proof. intros H. apply isDigit_cases in H. by decompose [or] H; subst. Qed.

Lemma Trim_clock_crlf (a b c d : ascii) :
  isDigit a = true -> isDigit b = true -> isDigit c = true ->
  isDigit d = true ->
  Trim (String a (String b (String ":" (String c (String d
          (String "013" (String "010" EmptyString)))))))
       (String "013" (String "010" EmptyString))
  = String a (String b (String ":" (String c (String d EmptyString)))).
Proof.
  intros Ha Hb Hc Hd. unfold Trim.
  cbn [trimLeftCutset]. rewrite (digit_not_in_crlf a Ha).
  cbn [trimRightCutset].
  change (inCutset "010" (String "013" (String "010" EmptyString))) with true.
  change (inCutset "013" (String "013" (String "010" EmptyString))) with true.
  cbv iota.
  by rewrite (digit_not_in_crlf d Hd).
Qed.

(** X22.  For the output "HH:mm" followed by a carriage return and a line
    feed, [Startup] on Windows returns today's date at that hour and
    minute. *)
Theorem X22_Startup_windows_reads_clock (now h m : Z) :
  0 <= h <= 23 -> 0 <= m <= 59 ->
  Startup_windows
    (inl (canonical h m ++ String "013" (String "010" EmptyString))%string) now
  = Returns (Date (dayOf now) h m 0 0, None).
Proof.
  intros Hh Hm.
  destruct (twoDigits_digits h) as [Hh1 Hh2]; [lia|].
  destruct (twoDigits_digits m) as [Hm1 Hm2]; [lia|].
  unfold Startup_windows, canonical, twoDigits.
  cbn [append]. rewrite Trim_clock_crlf by done.
  rewrite startupClock_long by (simpl; lia).
  simpl. rewrite !atoiOrZero_twoDigits by lia. done.
Qed.

Lemma X22_Startup_windows_reads_clock_witness :
  Startup_windows
    (inl ("08:15" ++ String "013" (String "010" EmptyString))%string) 0
  = Returns (Date (dayOf 0) 8 15 0 0, None).
Proof.
  apply (X22_Startup_windows_reads_clock 0 8 15); lia.
Defined.

(** * [RemoveItem] and the array of its slice *)

Lemma writeAt_spec (src arr : list Z) i :
  (i + length src <= length arr)%nat ->
  writeAt arr i src = take i arr ++ src ++ drop (i + length src) arr.
Proof.
  revert arr i. induction src as [|x src IH]; intros arr i Hlen; simpl.
  - by rewrite Nat.add_0_r, take_drop.
  - simpl in Hlen. rewrite IH by (rewrite length_insert; lia).
    rewrite drop_insert_lt by lia.
    replace (S i + length src)%nat with (i + S (length src))%nat by lia.
    rewrite (take_S_r (<[i:=x]> arr) i x).
    + rewrite take_insert_ge by lia. by rewrite <- app_assoc.
    + apply list_lookup_insert_eq. lia.
Qed.

(** X23.  [RemoveItem] works in the array of the slice it is given.  What
    it returns reads as the removal on the elements; but at a valid index
    the array is overwritten, and the slice the caller still holds reads
    the result followed by its former last element. *)
Theorem X23_RemoveItem_overwrites_array (s : slice) (index : Z) :
  (slen s <= length (backing s))%nat ->
  elems (RemoveItemInPlace s index) = RemoveItem (elems s) index /\
  (0 <= index < Z.of_nat (slen s) ->
   take (slen s) (backing (RemoveItemInPlace s index))
   = RemoveItem (elems s) index ++ [Last (elems s)]).
Proof.
  intros Hcap. unfold RemoveItemInPlace, RemoveItem, len, elems.
  rewrite length_take, Nat.min_l by done.
  destruct (Z.ltb_spec index 0) as [Hneg|Hnn]; simpl.
  { split; [done|lia]. }
  destruct (Z.geb_spec index (Z.of_nat (slen s))) as [Hge|Hlt]; simpl.
  { split; [done|lia]. }
  set (i := Z.to_nat index) in *. set (n := slen s) in *.
  set (B := backing s) in *.
  assert (i < n)%nat as Hi by lia.
  replace (Z.to_nat (index + 1)) with (i + 1)%nat by lia.
  assert (length (drop (i + 1) (take n B)) = (n - (i + 1))%nat) as Htail.
  { rewrite length_drop, length_take. lia. }
  rewrite Htail.
  replace (i + (n - (i + 1)))%nat with (n - 1)%nat by lia.
  rewrite writeAt_spec by (rewrite Htail; lia). rewrite Htail.
  replace (i + (n - (i + 1)))%nat with (n - 1)%nat by lia.
  assert (take i B = take i (take n B)) as Hti
    by (rewrite take_take; f_equal; lia).
  set (values := take i (take n B) ++ drop (i + 1) (take n B)).
  assert (length values = (n - 1)%nat) as Hvalues.
  { subst values. rewrite length_app, Htail, !length_take. lia. }
  assert (take (n - 1) (take i B ++ drop (i + 1) (take n B) ++ drop (n - 1) B)
          = values) as Htake.
  { rewrite app_assoc, Hti. fold values.
    rewrite take_app_length'; done. }
  assert (drop (n - 1) (take i B ++ drop (i + 1) (take n B) ++ drop (n - 1) B)
          = drop (n - 1) B) as Hdrop.
  { rewrite app_assoc, Hti. fold values.
    rewrite drop_app_length'; done. }
  unfold sortInPlace. rewrite Htake, Hdrop.
  assert (length (sortSlice Before values) = (n - 1)%nat) as Hsorted
    by (by rewrite sortSlice_length).
  split.
  - rewrite take_app_length'; done.
  - intros _. unfold sortTimesAscending. fold values.
    replace (take n (sortSlice Before values ++ drop (n - 1) B))
      with (take (length (sortSlice Before values) + 1)
              (sortSlice Before values ++ drop (n - 1) B))
      by (f_equal; lia).
    rewrite take_app_add. f_equal.
    unfold Last, len. rewrite length_take, Nat.min_l by done. fold n.
    destruct (Z.eqb_spec (Z.of_nat n) 0); [lia|].
    replace (Z.to_nat (Z.of_nat n - 1)) with (n - 1)%nat by lia.
    rewrite lookup_take_lt by lia.
    destruct (B !! (n - 1)%nat) as [x|] eqn:Hx.
    + simpl. by rewrite (drop_S B x (n - 1) Hx).
    + apply lookup_ge_None in Hx. subst B n. lia.
Qed.

Lemma X23_RemoveItem_overwrites_array_witness :
  take 3 (backing (RemoveItemInPlace {| backing := [8; 10; 12; 99]; slen := 3 |} 0))
  = RemoveItem [8; 10; 12] 0 ++ [12].
Proof.
  refine (proj2 (X23_RemoveItem_overwrites_array
                   {| backing := [8; 10; 12; 99]; slen := 3 |} 0 _) _).
  - simpl. lia.
  - simpl. lia.
Defined.
